(** * Expense tracker: the dashboard screen and the "add expense" modal

    A shallow embedding of the two React Native components of the repository,
    [ExpenseDashboard] (the list screen: [loadExpenses], [saveExpenses],
    [handleSaveExpense], [deleteExpense], [getExpenseStats]) and
    [AddExpenseModal] (the form: [handleSave]), followed by the properties of
    the expense store that the specification states about them.

    The components are effectful: they hold React state, read the clock, talk
    to [AsyncStorage] and raise [Alert] dialogs.  Every handler is embedded as
    a function from the state of the world before the call to the state after
    it; what the environment decides during the call (the clock readings,
    whether a storage call rejects, which button of a dialog is pressed) is an
    explicit argument of the handler.  Handlers run one after the other: each
    one sees the state that the previous one left, as a handler does that runs
    after the screen was rendered again. *)

From Stdlib Require Import ZArith List String Ascii Bool Lia.
From Stdlib Require Import Sorting.Sorted Sorting.Permutation.
From Stdlib Require Import SpecFloat DecimalString DecimalZ.
Import ListNotations.

Local Open Scope string_scope.
Local Open Scope Z_scope.

(** ** The JavaScript built-ins the components call *)

Module JS.

(** *** Numbers

    A JavaScript number is an IEEE 754 binary64 value: [spec_float] with a
    precision of 53 bits and a maximal exponent of 1024. *)

Definition number : Type := spec_float.

Definition prec : Z := 53.
Definition emax : Z := 1024.

Definition NaN : number := S754_nan.
Definition zero : number := S754_zero false.

(** [isNaN x] on a number. *)
Definition isNaN (x : number) : bool :=
  match x with S754_nan => true | _ => false end.

(** [x <= y] and [x + y] on numbers. *)
Definition le (x y : number) : bool := SFleb x y.
Definition add (x y : number) : number := SFadd prec emax x y.

(** [Number.isFinite]. *)
Definition isFinite (x : number) : bool :=
  match x with S754_zero _ | S754_finite _ _ _ => true | _ => false end.

(** *** Strings

    A string is a sequence of UTF-16 code units; [String.string] holds the
    code units below 256, one per character. *)

(** [!s] is [false] exactly for the non-empty strings. *)
Definition truthy (s : string) : bool :=
  match s with EmptyString => false | String _ _ => true end.

(** White space and line terminators: TAB, LF, VT, FF, CR, SP and NBSP are
    the ones below 256. *)
Definition isWhiteSpace (c : ascii) : bool :=
  let n := N_of_ascii c in
  (((9 <=? n) && (n <=? 13)) || (n =? 32) || (n =? 160))%N.

Fixpoint trimStart (s : string) : string :=
  match s with
  | EmptyString => EmptyString
  | String c s' => if isWhiteSpace c then trimStart s' else s
  end.

Fixpoint trimEnd (s : string) : string :=
  match s with
  | EmptyString => EmptyString
  | String c s' =>
      match trimEnd s' with
      | EmptyString => if isWhiteSpace c then EmptyString else String c EmptyString
      | r => String c r
      end
  end.

(** [String.prototype.trim]. *)
Definition trim (s : string) : string := trimEnd (trimStart s).

(** *** [parseFloat]

    The longest prefix of the input, leading white space skipped, that is a
    [StrDecimalLiteral]: an optional sign followed by [Infinity], by digits
    with an optional fraction, or by a fraction alone, and then by an
    optional exponent.  The result is the number nearest to the literal's
    mathematical value, or [NaN] when no prefix is a literal. *)

Definition isDigit (c : ascii) : bool :=
  let n := N_of_ascii c in ((48 <=? n) && (n <=? 57))%N.

Definition digitValue (c : ascii) : Z := Z.of_N (N_of_ascii c) - 48.

(** Reads a run of decimal digits: the value read on top of [acc], the number
    of digits added to [len], and the rest of the string. *)
Fixpoint scanDigits (s : string) (acc len : Z) : Z * Z * string :=
  match s with
  | String c s' =>
      if isDigit c then scanDigits s' (10 * acc + digitValue c) (len + 1)
      else (acc, len, s)
  | EmptyString => (acc, len, s)
  end.

(** An optional sign: [true] for "-". *)
Definition scanSign (s : string) : bool * string :=
  match s with
  | String "+"%char s' => (false, s')
  | String "-"%char s' => (true, s')
  | _ => (false, s)
  end.

(** An optional [ExponentPart]; an "e" that no digit follows is not part of
    the literal. *)
Definition scanExponent (s : string) : Z :=
  match s with
  | String c s1 =>
      if (Ascii.eqb c "e" || Ascii.eqb c "E")%char then
        let (neg, s2) := scanSign s1 in
        let '(v, n, _) := scanDigits s2 0 0 in
        if n =? 0 then 0 else if neg then - v else v
      else 0
  | EmptyString => 0
  end.

(** The number nearest to [m * 10 ^ e10], for [m >= 0]. *)
Definition numberValue (neg : bool) (m e10 : Z) : number :=
  match m with
  | Zpos _ =>
      let num := if 0 <=? e10 then m * 10 ^ e10 else m in
      let den := if 0 <=? e10 then 1 else 10 ^ (- e10) in
      SFdiv prec emax (S754_finite neg (Z.to_pos num) 0)
                      (S754_finite false (Z.to_pos den) 0)
  | _ => S754_zero neg
  end.

Definition parseFloat (input : string) : number :=
  let (neg, s) := scanSign (trimStart input) in
  if String.prefix "Infinity" s then S754_infinity neg
  else
    let '(ip, ilen, s1) := scanDigits s 0 0 in
    match s1 with
    | String "."%char s1' =>
        let '(m, flen, s2) := scanDigits s1' ip 0 in
        if (ilen =? 0) && (flen =? 0) then NaN
        else numberValue neg m (scanExponent s2 - flen)
    | _ =>
        if ilen =? 0 then NaN
        else numberValue neg ip (scanExponent s1)
    end.

(** *** Time values

    A time value is a number of milliseconds since the epoch, an integer.
    [Date.now()] and [new Date()] read the clock; a [Date] is the time value
    it holds.  [new Date().toISOString()] writes a time value as ISO 8601
    text and [new Date(text)] reads it back: the text is identified with the
    time value it denotes. *)

Definition time : Type := Z.

(** [Number.prototype.toString] on an integer time value: its decimal
    digits, with a leading "-" below zero. *)
Definition toString (t : time) : string :=
  NilZero.string_of_int (Z.to_int t).

Definition msPerDay : Z := 86400000.

(** The calendar year and month (January is 0) of a day number counted from
    1970-01-01, in the proleptic Gregorian calendar. *)
Definition civil (day : Z) : Z * Z :=
  let z := day + 719468 in
  let era := z / 146097 in
  let doe := z - era * 146097 in
  let yoe := (doe - doe / 1460 + doe / 36524 - doe / 146096) / 365 in
  let doy := doe - (365 * yoe + yoe / 4 - yoe / 100) in
  let mp := (5 * doy + 2) / 153 in
  let m := if mp <? 10 then mp + 3 else mp - 9 in
  let y := yoe + era * 400 + (if m <=? 2 then 1 else 0) in
  (y, m - 1).

(** [getFullYear] and [getMonth] are in local time: [tza t] is the offset of
    local time from UTC, in milliseconds, at the time value [t]. *)
Definition getFullYear (tza : time -> Z) (t : time) : Z :=
  fst (civil ((t + tza t) / msPerDay)).

Definition getMonth (tza : time -> Z) (t : time) : Z :=
  snd (civil ((t + tza t) / msPerDay)).

(** The day of the month of a day number counted from 1970-01-01. *)
Definition dayOfMonth (day : Z) : Z :=
  let z := day + 719468 in
  let era := z / 146097 in
  let doe := z - era * 146097 in
  let yoe := (doe - doe / 1460 + doe / 36524 - doe / 146096) / 365 in
  let doy := doe - (365 * yoe + yoe / 4 - yoe / 100) in
  let mp := (5 * doy + 2) / 153 in
  doy - (153 * mp + 2) / 5 + 1.

(** [getDate], in local time as [getMonth] is. *)
Definition getDate (tza : time -> Z) (t : time) : Z :=
  dayOfMonth ((t + tza t) / msPerDay).

(** [s.padStart(targetLength, c)] for a pad string of one character [c]. *)
Definition padStart (targetLength : nat) (c : ascii) (s : string) : string :=
  (string_of_list_ascii (repeat c (targetLength - String.length s)) ++ s)%string.

(** [text.replace(/\D/g, '')]: the decimal digits of the text. *)
Fixpoint removeNonDigits (s : string) : string :=
  match s with
  | EmptyString => EmptyString
  | String c s' =>
      if isDigit c then String c (removeNonDigits s') else removeNonDigits s'
  end.

(** A greedy [\d{0,n}] at the start of [s]: the digits it takes, at most
    [n], and what follows them. *)
Fixpoint takeDigits (n : nat) (s : string) : string * string :=
  match n, s with
  | S n', String c s' =>
      if isDigit c
      then let (taken, rest) := takeDigits n' s' in (String c taken, rest)
      else (EmptyString, s)
  | _, _ => (EmptyString, s)
  end.

(** *** [Array.prototype.sort]

    With a comparator [cmp], [a] is placed after [b] when [cmp a b > 0], and
    elements that compare equal keep their relative order (the sort is
    stable).  Insertion from the right realises it. *)
Section Sort.
Context {A : Type}.
Variable cmp : A -> A -> Z.

Fixpoint insert (x : A) (l : list A) : list A :=
  match l with
  | [] => [x]
  | y :: l' => if 0 <? cmp x y then y :: insert x l' else x :: l
  end.

Fixpoint sort (l : list A) : list A :=
  match l with
  | [] => []
  | x :: l' => insert x (sort l')
  end.
End Sort.

End JS.

(** ** Expense records and their JSON text *)

Module Expense.

(** What the [amount] property of a record can hold: the number that
    [handleSave] stores, or [null], which is what comes back from JSON text
    for a number that JSON cannot write. *)
Inductive value : Type :=
| Num (x : JS.number)
| Null.

(** The object [handleSave] builds; [timestamp] is the time value that its
    ISO 8601 text denotes. *)
Record t : Type := mk {
  id : string;
  amount : value;
  category : string;
  date : string;
  description : string;
  timestamp : JS.time
}.

(** [ToNumber] on an amount: [null] converts to [+0]. *)
Definition toNumber (v : value) : JS.number :=
  match v with
  | Num x => x
  | Null => JS.zero
  end.

End Expense.

Module JSON.

(** A number survives JSON text when it is finite ([-0] is written "0");
    [NaN] and the infinities are written "null". *)
Definition ofValue (v : Expense.value) : Expense.value :=
  match v with
  | Expense.Num (S754_zero _) => Expense.Num JS.zero
  | Expense.Num (S754_finite s m e) => Expense.Num (S754_finite s m e)
  | Expense.Num _ => Expense.Null
  | Expense.Null => Expense.Null
  end.

(** The record that the JSON text of a record denotes: strings and the
    timestamp text are written and read back unchanged. *)
Definition ofExpense (e : Expense.t) : Expense.t :=
  Expense.mk (Expense.id e) (ofValue (Expense.amount e)) (Expense.category e)
             (Expense.date e) (Expense.description e) (Expense.timestamp e).

(** What [JSON.parse] can return: an array of expense objects, or a value
    that is no array ([null], a number, a string, a boolean, an object). *)
Inductive parsed : Type :=
| Array (l : list Expense.t)
| Other.

(** What the storage item can hold.  JSON text is identified with the value
    it denotes. *)
Inductive text : Type :=
| Empty
| Malformed
| Text (v : parsed).

(** [JSON.stringify] on the in-memory collection. *)
Definition stringify (l : list Expense.t) : text :=
  Text (Array (map ofExpense l)).

End JSON.

(** ** Exceptions

    [try] blocks are embedded with a completion: a value, or the error that
    was thrown. *)

Inductive Error : Type :=
| StorageError     (* an AsyncStorage promise rejected *)
| SyntaxError      (* JSON.parse on text that is not JSON *)
| TypeError.       (* a method called on a value that lacks it *)

Inductive Completion (A : Type) : Type :=
| Normal (a : A)
| Throw (e : Error).

Arguments Normal {A} a.
Arguments Throw {A} e.

Definition bind {A B : Type} (c : Completion A) (k : A -> Completion B) : Completion B :=
  match c with
  | Normal a => k a
  | Throw e => Throw e
  end.

Notation "x <- c ;; k" := (bind c (fun x => k))
  (at level 61, c at next level, right associativity).

(** [JSON.parse]: a [SyntaxError] on text that is not JSON. *)
Definition JSON_parse (s : JSON.text) : Completion JSON.parsed :=
  match s with
  | JSON.Text v => Normal v
  | _ => Throw SyntaxError
  end.

(** ** The state of the world *)

(** The four [useState] hooks of [AddExpenseModal]: what the user has typed. *)
Module Form.
Record t : Type := mk {
  amount : string;
  category : string;
  date : string;
  description : string
}.
Definition empty : t := mk "" "" "" "".
End Form.

(** How an [AsyncStorage] promise settles. *)
Inductive Settled : Type := Fulfilled | Rejected.

(** The button pressed in the confirmation dialog ([Cancel] also stands for a
    dismissed dialog). *)
Inductive Button : Type := Cancel | Delete.

Record World : Type := mkWorld {
  (* ExpenseDashboard *)
  expenses : list Expense.t;
  modalVisible : bool;
  refreshing : bool;
  loading : bool;
  (* AddExpenseModal *)
  form : Form.t;
  (* AsyncStorage: the item under the key 'expenses' *)
  storage : option JSON.text;
  (* Alert.alert calls (title, message) and console.error calls, latest first *)
  alerts : list (string * string);
  console : list string
}.

Definition setExpenses (l : list Expense.t) (w : World) : World :=
  mkWorld l (modalVisible w) (refreshing w) (loading w) (form w)
          (storage w) (alerts w) (console w).

Definition setModalVisible (b : bool) (w : World) : World :=
  mkWorld (expenses w) b (refreshing w) (loading w) (form w)
          (storage w) (alerts w) (console w).

Definition setRefreshing (b : bool) (w : World) : World :=
  mkWorld (expenses w) (modalVisible w) b (loading w) (form w)
          (storage w) (alerts w) (console w).

Definition setLoading (b : bool) (w : World) : World :=
  mkWorld (expenses w) (modalVisible w) (refreshing w) b (form w)
          (storage w) (alerts w) (console w).

Definition setForm (f : Form.t) (w : World) : World :=
  mkWorld (expenses w) (modalVisible w) (refreshing w) (loading w) f
          (storage w) (alerts w) (console w).

Definition Alert_alert (title message : string) (w : World) : World :=
  mkWorld (expenses w) (modalVisible w) (refreshing w) (loading w) (form w)
          (storage w) ((title, message) :: alerts w) (console w).

Definition console_error (message : string) (w : World) : World :=
  mkWorld (expenses w) (modalVisible w) (refreshing w) (loading w) (form w)
          (storage w) (alerts w) (message :: console w).

(** [AsyncStorage.getItem('expenses')]. *)
Definition AsyncStorage_getItem (settles : Settled) (w : World)
  : Completion (option JSON.text) :=
  match settles with
  | Fulfilled => Normal (storage w)
  | Rejected => Throw StorageError
  end.

(** [AsyncStorage.setItem('expenses', value)]: the item is replaced as a
    whole, or not at all. *)
Definition AsyncStorage_setItem (settles : Settled) (value : JSON.text) (w : World)
  : Completion World :=
  match settles with
  | Fulfilled =>
      Normal (mkWorld (expenses w) (modalVisible w) (refreshing w) (loading w)
                      (form w) (Some value) (alerts w) (console w))
  | Rejected => Throw StorageError
  end.

(** ** [AddExpenseModal] *)

Module AddExpenseModal.

Definition resetForm (w : World) : World := setForm Form.empty w.

Section Props.
(** The [onSave] and [onClose] properties the parent passes in. *)
Variable onSave : Expense.t -> World -> World.
Variable onClose : World -> World.

Definition handleClose (w : World) : World := onClose (resetForm w).

(** [handleSave]; [Date_now] is what [Date.now()] returns and [new_Date]
    the time value of the later [new Date()]. *)
Definition handleSave (Date_now new_Date : JS.time) (w : World) : World :=
  let amount := Form.amount (form w) in
  let category := Form.category (form w) in
  let date := Form.date (form w) in
  let description := Form.description (form w) in
  if negb (JS.truthy amount) || negb (JS.truthy category) || negb (JS.truthy date)
  then
    Alert_alert "Error"
      "Please fill in all required fields (Amount, Category, and Date)" w
  else
    let numAmount := JS.parseFloat amount in
    if JS.isNaN numAmount || JS.le numAmount JS.zero
    then Alert_alert "Error" "Please enter a valid amount greater than 0" w
    else
      let newExpense :=
        Expense.mk (JS.toString Date_now) (Expense.Num numAmount)
                   (JS.trim category) (JS.trim date) (JS.trim description)
                   new_Date in
      onClose (resetForm (onSave newExpense w)).
End Props.

(** The categories offered for quick selection. *)
Record Category : Type := mkCategory {
  name : string;
  icon : string;
  color : string
}.

Definition categories : list Category :=
  [ mkCategory "Food" "restaurant" "#F59E0B";
    mkCategory "Transport" "car" "#3B82F6";
    mkCategory "Shopping" "bag" "#EF4444";
    mkCategory "Entertainment" "game-controller" "#8B5CF6";
    mkCategory "Health" "medical" "#10B981";
    mkCategory "Bills" "receipt" "#F97316";
    mkCategory "Education" "school" "#06B6D4";
    mkCategory "Other" "ellipsis-horizontal" "#6B7280" ].

(** The setters of the four hooks. *)
Definition setAmount (text : string) (w : World) : World :=
  setForm (Form.mk text (Form.category (form w)) (Form.date (form w))
                   (Form.description (form w))) w.

Definition setCategory (text : string) (w : World) : World :=
  setForm (Form.mk (Form.amount (form w)) text (Form.date (form w))
                   (Form.description (form w))) w.

Definition setDate (text : string) (w : World) : World :=
  setForm (Form.mk (Form.amount (form w)) (Form.category (form w)) text
                   (Form.description (form w))) w.

Definition setDescription (text : string) (w : World) : World :=
  setForm (Form.mk (Form.amount (form w)) (Form.category (form w))
                   (Form.date (form w)) text) w.

Definition selectCategory (categoryName : string) (w : World) : World :=
  setCategory categoryName w.

(** [cleaned.match(/^(\d{0,2})(\d{0,2})(\d{0,4})$/)]: the three groups,
    each as long as it can be, when the end of the text follows them.  The
    groups take digits only, so no shorter choice reaches the end of a text
    that the longest one does not reach. *)
Definition matchDate (cleaned : string) : option (string * string * string) :=
  let (m1, rest1) := JS.takeDigits 2 cleaned in
  let (m2, rest2) := JS.takeDigits 2 rest1 in
  let (m3, rest3) := JS.takeDigits 4 rest2 in
  match rest3 with
  | EmptyString => Some (m1, m2, m3)
  | String _ _ => None
  end.

(** [formatDate]: the digits of the text as MM/DD/YYYY, as far as they go. *)
Definition formatDate (text : string) : string :=
  let cleaned := JS.removeNonDigits text in
  match matchDate cleaned with
  | Some (m1, m2, m3) =>
      let formatted := EmptyString in
      let formatted :=
        if JS.truthy m1 then (formatted ++ m1)%string else formatted in
      let formatted :=
        if JS.truthy m2 then (formatted ++ "/" ++ m2)%string else formatted in
      let formatted :=
        if JS.truthy m3 then (formatted ++ "/" ++ m3)%string else formatted in
      formatted
  | None => text
  end.

Definition handleDateChange (text : string) (w : World) : World :=
  let formatted := formatDate text in
  setDate formatted w.

(** [getCurrentDate]; [today] is the time value of its [new Date()]. *)
Definition getCurrentDate (tza : JS.time -> Z) (today : JS.time) : string :=
  let month := JS.padStart 2 "0" (JS.toString (JS.getMonth tza today + 1)) in
  let day := JS.padStart 2 "0" (JS.toString (JS.getDate tza today)) in
  let year := JS.getFullYear tza today in
  (month ++ "/" ++ day ++ "/" ++ JS.toString year)%string.

Definition setTodayDate (tza : JS.time -> Z) (today : JS.time) (w : World) : World :=
  setDate (getCurrentDate tza today) w.

End AddExpenseModal.

(** ** [ExpenseDashboard] *)

Module ExpenseDashboard.

(** The state of a freshly created component over what storage holds. *)
Definition initial (stored : option JSON.text) : World :=
  mkWorld [] false false true Form.empty stored [] [].

(** The comparator of [loadExpenses]: newest first. *)
Definition byTimestamp (a b : Expense.t) : Z :=
  Expense.timestamp b - Expense.timestamp a.

(** [parsedExpenses.sort(...)]: a [TypeError] when the value has no [sort]. *)
Definition sortParsed (v : JSON.parsed) : Completion (list Expense.t) :=
  match v with
  | JSON.Array l => Normal (JS.sort byTimestamp l)
  | JSON.Other => Throw TypeError
  end.

Definition loadExpenses (getItem : Settled) (w : World) : World :=
  let w := setLoading true w in
  let body :=
    storedExpenses <- AsyncStorage_getItem getItem w ;;
    match storedExpenses with
    | Some JSON.Empty | None => Normal w
    | Some s =>
        parsedExpenses <- JSON_parse s ;;
        sortedExpenses <- sortParsed parsedExpenses ;;
        Normal (setExpenses sortedExpenses w)
    end in
  let w :=
    match body with
    | Normal w' => w'
    | Throw _ =>
        Alert_alert "Error" "Failed to load expenses"
          (console_error "Error loading expenses:" w)
    end in
  setLoading false w.

Definition saveExpenses (setItem : Settled) (newExpenses : list Expense.t)
           (w : World) : World :=
  match AsyncStorage_setItem setItem (JSON.stringify newExpenses) w with
  | Normal w' => w'
  | Throw _ =>
      Alert_alert "Error" "Failed to save expenses"
        (console_error "Error saving expenses:" w)
  end.

Definition handleSaveExpense (setItem : Settled) (newExpense : Expense.t)
           (w : World) : World :=
  let updatedExpenses := newExpense :: expenses w in
  saveExpenses setItem updatedExpenses (setExpenses updatedExpenses w).

(** The [filter] callback of [deleteExpense]: [expense.id !== id]. *)
Definition keeps (id : string) (expense : Expense.t) : bool :=
  negb (String.eqb (Expense.id expense) id).

(** [deleteExpense]: the dialog, then the [onPress] of the button the user
    chooses. *)
Definition deleteExpense (id : string) (pressed : Button) (setItem : Settled)
           (w : World) : World :=
  let w :=
    Alert_alert "Delete Expense"
      "Are you sure you want to delete this expense?" w in
  match pressed with
  | Cancel => w
  | Delete =>
      let updatedExpenses := filter (keeps id) (expenses w) in
      saveExpenses setItem updatedExpenses (setExpenses updatedExpenses w)
  end.

Definition onRefresh (getItem : Settled) (w : World) : World :=
  setRefreshing false (loadExpenses getItem (setRefreshing true w)).

Record Stats : Type := mkStats {
  total : JS.number;
  monthly : JS.number;
  count : nat;
  monthlyCount : nat
}.

(** The [reduce] callback: [sum + expense.amount]. *)
Definition addAmount (sum : JS.number) (expense : Expense.t) : JS.number :=
  JS.add sum (Expense.toNumber (Expense.amount expense)).

(** The [filter] callback of [getExpenseStats]. *)
Definition inMonth (tza : JS.time -> Z) (thisMonth thisYear : Z)
           (expense : Expense.t) : bool :=
  let expenseDate := Expense.timestamp expense in
  (JS.getMonth tza expenseDate =? thisMonth)
  && (JS.getFullYear tza expenseDate =? thisYear).

(** [getExpenseStats]; [now1] and [now2] are the time values of its two
    [new Date()] and [tza] the local time zone. *)
Definition getExpenseStats (tza : JS.time -> Z) (now1 now2 : JS.time)
           (w : World) : Stats :=
  let totalExpenses := fold_left addAmount (expenses w) JS.zero in
  let thisMonth := JS.getMonth tza now1 in
  let thisYear := JS.getFullYear tza now2 in
  let monthlyExpenses := filter (inMonth tza thisMonth thisYear) (expenses w) in
  let monthlyTotal := fold_left addAmount monthlyExpenses JS.zero in
  mkStats totalExpenses monthlyTotal
          (List.length (expenses w)) (List.length monthlyExpenses).

(** The modal as the dashboard renders it: [onSave] is [handleSaveExpense]
    and [onClose] hides the modal. *)
Definition handleSave (Date_now new_Date : JS.time) (setItem : Settled)
           (w : World) : World :=
  AddExpenseModal.handleSave (handleSaveExpense setItem)
                             (setModalVisible false) Date_now new_Date w.

(** What a property access on an object literal of strings gives: the string
    stored under the key, or, for a key the literal does not have, whatever
    object [Object.prototype] answers with, if it knows the name. *)
Inductive Property : Type :=
| Str (s : string)
| Inherited.

(** [table[key] || fallback]: the strings of the tables are not empty and an
    inherited property is an object, so only a key found nowhere gives the
    fallback.  [inherited] tells the names that [Object.prototype] knows. *)
Fixpoint lookup (table : list (string * string)) (key : string) : option string :=
  match table with
  | [] => None
  | (k, v) :: table' => if String.eqb k key then Some v else lookup table' key
  end.

Definition orElse (inherited : string -> bool) (table : list (string * string))
           (key fallback : string) : Property :=
  match lookup table key with
  | Some v => Str v
  | None => if inherited key then Inherited else Str fallback
  end.

Definition getCategoryIcon (inherited : string -> bool) (category : string)
  : Property :=
  let icons :=
    [ ("Food", "restaurant"); ("Transport", "car"); ("Shopping", "bag");
      ("Entertainment", "game-controller"); ("Health", "medical");
      ("Bills", "receipt"); ("Education", "school");
      ("Other", "ellipsis-horizontal") ] in
  orElse inherited icons category "cash".

Definition getCategoryColor (inherited : string -> bool) (category : string)
  : Property :=
  let colors :=
    [ ("Food", "#F59E0B"); ("Transport", "#3B82F6"); ("Shopping", "#EF4444");
      ("Entertainment", "#8B5CF6"); ("Health", "#10B981");
      ("Bills", "#F97316"); ("Education", "#06B6D4"); ("Other", "#6B7280") ] in
  orElse inherited colors category "#4F46E5".

(** [formatAmount]: [toFixed2 x] is the text of [x.toFixed(2)]; on [null]
    the property access throws. *)
Definition formatAmount (toFixed2 : JS.number -> string) (amount : Expense.value)
  : Completion string :=
  match amount with
  | Expense.Num x => Normal ("$" ++ toFixed2 x)%string
  | Expense.Null => Throw TypeError
  end.

End ExpenseDashboard.

(** ** The store over time

    What can happen to a running application: the user fills the form and
    presses "Save Expense", confirms or cancels the deletion of a record,
    pulls the list to refresh it, or the process is restarted, which loses the
    component state, keeps the storage and runs the mount effect. *)

Inductive Event : Type :=
| Save (candidate : Form.t) (Date_now new_Date : JS.time) (setItem : Settled)
| Remove (id : string) (pressed : Button) (setItem : Settled)
| Refresh (getItem : Settled)
| Restart (getItem : Settled).

Definition step (w : World) (ev : Event) : World :=
  match ev with
  | Save candidate Date_now new_Date setItem =>
      ExpenseDashboard.handleSave Date_now new_Date setItem
        (setForm candidate (setModalVisible true w))
  | Remove id pressed setItem =>
      ExpenseDashboard.deleteExpense id pressed setItem w
  | Refresh getItem => ExpenseDashboard.onRefresh getItem w
  | Restart getItem =>
      ExpenseDashboard.loadExpenses getItem
        (ExpenseDashboard.initial (storage w))
  end.

Definition run (evs : list Event) (w : World) : World := fold_left step evs w.

(** The application on a device whose storage holds nothing yet. *)
Definition installed : World := ExpenseDashboard.initial None.

(** ** The vocabulary of the specification *)

(** A valid candidate: the amount is there, numeric and greater than 0, the
    category and the date are there. *)
Definition valid (f : Form.t) : Prop :=
  Form.amount f <> "" /\
  JS.isNaN (JS.parseFloat (Form.amount f)) = false /\
  SFltb JS.zero (JS.parseFloat (Form.amount f)) = true /\
  Form.category f <> "" /\
  Form.date f <> "".

(** The record that a candidate becomes at the given clock readings. *)
Definition recordOf (f : Form.t) (Date_now new_Date : JS.time) : Expense.t :=
  Expense.mk (JS.toString Date_now)
             (Expense.Num (JS.parseFloat (Form.amount f)))
             (JS.trim (Form.category f)) (JS.trim (Form.date f))
             (JS.trim (Form.description f)) new_Date.

(** A string made of white space only. *)
Fixpoint allWhiteSpace (s : string) : bool :=
  match s with
  | EmptyString => true
  | String c s' => JS.isWhiteSpace c && allWhiteSpace s'
  end.

(** The two messages of a failed validation. *)
Definition validationError (message : string) : Prop :=
  message = "Please fill in all required fields (Amount, Category, and Date)" \/
  message = "Please enter a valid amount greater than 0".

(** Newest first: every record is at least as recent as those after it. *)
Definition newestFirst (l : list Expense.t) : Prop :=
  StronglySorted (fun a b => Expense.timestamp b <= Expense.timestamp a) l.

(** The records of a list that carry the timestamp [t], in the order of the
    list. *)
Definition stampedAt (t : JS.time) (l : list Expense.t) : list Expense.t :=
  filter (fun e => Expense.timestamp e =? t) l.

(** The records the storage item denotes, none when it is absent or not the
    JSON text of an array. *)
Definition stored (w : World) : list Expense.t :=
  match storage w with
  | Some (JSON.Text (JSON.Array l)) => l
  | _ => []
  end.

(** The clock readings that the accepted or rejected saves of a trace turn
    into ids, and the ones they turn into timestamps. *)
Definition idReadings (evs : list Event) : list JS.time :=
  flat_map (fun ev => match ev with Save _ t _ _ => [t] | _ => [] end) evs.

Definition stampReadings (evs : list Event) : list JS.time :=
  flat_map (fun ev => match ev with Save _ _ t _ => [t] | _ => [] end) evs.

(** A clock that never runs backwards between two saves. *)
Definition nondecreasing (ts : list JS.time) : Prop :=
  StronglySorted Z.le ts.

(** A mutating operation: the save of a valid candidate, or a confirmed
    deletion; and how its [setItem] settles. *)
Definition mutating (ev : Event) : Prop :=
  match ev with
  | Save candidate _ _ _ => valid candidate
  | Remove _ Delete _ => True
  | _ => False
  end.

Definition setItemOf (ev : Event) : Settled :=
  match ev with
  | Save _ _ _ setItem => setItem
  | Remove _ _ setItem => setItem
  | _ => Fulfilled
  end.

(** Storage that holds no data, and storage whose data is not the text of a
    collection. *)
Definition noData (item : option JSON.text) : Prop :=
  item = None \/ item = Some JSON.Empty.

Definition undecodable (item : option JSON.text) : Prop :=
  item = Some JSON.Malformed \/ item = Some (JSON.Text JSON.Other).

(** A record that a save of the trace created: the record as [handleSave]
    built it, or the record that its JSON text denotes. *)
Definition created (evs : list Event) (e : Expense.t) : Prop :=
  exists candidate Date_now new_Date setItem,
    In (Save candidate Date_now new_Date setItem) evs /\
    valid candidate /\
    (e = recordOf candidate Date_now new_Date \/
     e = JSON.ofExpense (recordOf candidate Date_now new_Date)).

(** The sum of the amounts of a list of records.  Number addition is not
    associative, so the order counts: the amounts are added one after the
    other in the order of the list, starting from 0. *)
Definition sumOfAmounts (l : list Expense.t) : JS.number :=
  fold_right (fun e sum => JS.add sum (Expense.toNumber (Expense.amount e)))
             JS.zero (rev l).

(** The timestamp of a record falls in a month (January is 0) of a year, in
    local time. *)
Definition fallsIn (tza : JS.time -> Z) (month year : Z) (e : Expense.t) : Prop :=
  JS.getMonth tza (Expense.timestamp e) = month /\
  JS.getFullYear tza (Expense.timestamp e) = year.

Definition fallsIn_dec (tza : JS.time -> Z) (month year : Z) (e : Expense.t)
  : {fallsIn tza month year e} + {~ fallsIn tza month year e}.
Proof.
  unfold fallsIn.
  destruct (Z.eq_dec (JS.getMonth tza (Expense.timestamp e)) month);
    destruct (Z.eq_dec (JS.getFullYear tza (Expense.timestamp e)) year);
    (left; tauto) || (right; tauto).
Defined.

(** The records of a list whose timestamp falls in the month, in the order
    of the list. *)
Definition recordsIn (tza : JS.time -> Z) (month year : Z) (l : list Expense.t)
  : list Expense.t :=
  filter (fun e => if fallsIn_dec tza month year e then true else false) l.

(** A string of decimal digits; a string of digits and slashes. *)
Fixpoint allDigits (s : string) : bool :=
  match s with
  | EmptyString => true
  | String c s' => JS.isDigit c && allDigits s'
  end.

Fixpoint digitsAndSlashes (s : string) : bool :=
  match s with
  | EmptyString => true
  | String c s' => (JS.isDigit c || Ascii.eqb c "/") && digitsAndSlashes s'
  end.

(** An amount as the collection can hold it: a number greater than 0, or
    [null]. *)
Definition positiveOrNull (v : Expense.value) : Prop :=
  match v with
  | Expense.Num x => SFltb JS.zero x = true
  | Expense.Null => True
  end.

(** An amount that JSON text gives back as it is: a finite number greater
    than 0, or [null]. *)
Definition finiteOrNull (v : Expense.value) : Prop :=
  match v with
  | Expense.Num x => SFltb JS.zero x = true /\ JS.isFinite x = true
  | Expense.Null => True
  end.

(** A record whose category, date and description are trimmed. *)
Definition trimmed (e : Expense.t) : Prop :=
  JS.trim (Expense.category e) = Expense.category e /\
  JS.trim (Expense.date e) = Expense.date e /\
  JS.trim (Expense.description e) = Expense.description e.

(** ** Sample data

    The candidates of the specification's scenario and some variations, and
    two instants of March 2024. *)

Definition food : Form.t := Form.mk "42.50" "Food" "03/15/2024" "".
Definition transport : Form.t := Form.mk "10" "Transport" "03/16/2024" "".
Definition letters : Form.t := Form.mk "abc" "Food" "03/15/2024" "".
Definition blankCategory : Form.t := Form.mk "5" "   " "03/15/2024" " lunch ".
Definition blankDate : Form.t := Form.mk "5" "Food" "  " "".
Definition huge : Form.t := Form.mk "1e999" "Food" "03/15/2024" "".

(** 2024-03-15T12:00:00.000Z and one day later. *)
Definition march15 : JS.time := 1710504000000.
Definition march16 : JS.time := 1710590400000.

(** The form as the user has filled it. *)
Definition filled (f : Form.t) : World := setForm f installed.

(** The states of the scenario: the first candidate saved, then the second
    one a day later; and the first candidate saved while storage rejects the
    write. *)
Definition foodSaved : World :=
  run [Save food march15 march15 Fulfilled] installed.

Definition bothSaved : World :=
  run [Save food march15 march15 Fulfilled;
       Save transport march16 march16 Fulfilled] installed.

Definition foodUnwritten : World :=
  run [Save food march15 march15 Rejected] installed.

(** Universal time as the local time zone, and an instant of April 2024
    (2024-04-16T12:00:00.000Z). *)
Definition utc : JS.time -> Z := fun _ => 0.
Definition april16 : JS.time := 1713268800000.

(** * Properties *)

(** ** Facts about the built-ins *)

(** 42.5 is 5981343255101440 * 2^-47; white space in front, and text after
    the longest numeric prefix, are skipped. *)
Example parseFloat_decimal :
  JS.parseFloat "42.50" = S754_finite false 5981343255101440 (-47) /\
  JS.parseFloat "  42.5kg" = JS.parseFloat "42.50" /\
  JS.parseFloat ".5e1" = JS.parseFloat "5" /\
  JS.parseFloat "5." = JS.parseFloat "5".
Proof. repeat split. Qed.

Example parseFloat_NaN :
  JS.parseFloat "abc" = JS.NaN /\ JS.parseFloat "." = JS.NaN /\
  JS.parseFloat "-" = JS.NaN /\ JS.parseFloat "   " = JS.NaN.
Proof. repeat split. Qed.

(** Out of range, a literal rounds to an infinity or to zero. *)
Example parseFloat_range :
  JS.parseFloat "1e999" = S754_infinity false /\
  JS.parseFloat "Infinity" = S754_infinity false /\
  JS.parseFloat "1e-400" = JS.zero /\
  JS.parseFloat "-0" = S754_zero true.
Proof. repeat split. Qed.

Example trim_spaces : JS.trim "  a b  " = "a b" /\ JS.trim "   " = "".
Proof. split; reflexivity. Qed.

(** 2024-03-15 is in March 2024, 2000-02-29 in February 2000, the last
    millisecond of 2023 in December 2023, also when read five and a half hours
    west of Greenwich. *)
Example civil_dates :
  JS.getMonth (fun _ => 0) 1710504000000 = 2 /\
  JS.getFullYear (fun _ => 0) 1710504000000 = 2024 /\
  JS.getMonth (fun _ => 0) 951782400000 = 1 /\
  JS.getMonth (fun _ => 0) 1704067199999 = 11 /\
  JS.getFullYear (fun _ => 0) 1704067199999 = 2023 /\
  JS.getFullYear (fun _ => -19800000) 1704070000000 = 2023 /\
  JS.getFullYear (fun _ => 0) (-1) = 1969.
Proof. repeat split. Qed.

Example toString_time :
  JS.toString 1710504000000 = "1710504000000" /\ JS.toString 0 = "0".
Proof. split; reflexivity. Qed.

Lemma to_int_proper (z : Z) :
  Z.to_int z <> Decimal.Pos Decimal.Nil /\ Z.to_int z <> Decimal.Neg Decimal.Nil.
Proof.
  destruct z as [|p|p]; cbn; split; try discriminate;
    intro H; injection H; apply DecimalPos.Unsigned.to_uint_nonnil.
Qed.

(** Two time values with the same decimal text are the same. *)
Lemma toString_inj (t1 t2 : JS.time) :
  JS.toString t1 = JS.toString t2 -> t1 = t2.
Proof.
  unfold JS.toString. intro H.
  apply to_int_inj.
  destruct (to_int_proper t1) as [P1 N1], (to_int_proper t2) as [P2 N2].
  pose proof (NilZero.isi _ P1 N1) as E1.
  pose proof (NilZero.isi _ P2 N2) as E2.
  rewrite H in E1. rewrite E1 in E2. now injection E2.
Qed.

(** A number that is not greater than 0 is [NaN] or at most 0. *)
Lemma not_gt_zero (x : JS.number) :
  SFltb JS.zero x = false -> JS.isNaN x = true \/ JS.le x JS.zero = true.
Proof.
  destruct x as [s|s| |s m e]; cbn; auto; destruct s; cbn; auto; discriminate.
Qed.

Lemma gt_zero (x : JS.number) :
  SFltb JS.zero x = true -> JS.isNaN x = false /\ JS.le x JS.zero = false.
Proof.
  destruct x as [s|s| |s m e]; cbn; try discriminate; destruct s; cbn; auto; discriminate.
Qed.

Lemma truthy_false (s : string) : JS.truthy s = false <-> s = "".
Proof. destruct s; cbn; split; congruence. Qed.

Lemma truthy_true (s : string) : JS.truthy s = true <-> s <> "".
Proof. destruct s; cbn; split; congruence. Qed.

Lemma trimStart_allWhiteSpace (s : string) :
  allWhiteSpace s = true -> JS.trimStart s = "".
Proof.
  induction s as [|c s IH]; cbn; [reflexivity|].
  intro H. apply andb_true_iff in H as [Hc Hs]. rewrite Hc. auto.
Qed.

(** Trimming a string of white space leaves nothing. *)
Lemma trim_allWhiteSpace (s : string) :
  allWhiteSpace s = true -> JS.trim s = "".
Proof.
  intro H. unfold JS.trim. now rewrite trimStart_allWhiteSpace.
Qed.

(** A positive finite number is written to JSON text and read back as it is. *)
Lemma ofValue_positive (x : JS.number) :
  SFltb JS.zero x = true -> JS.isFinite x = true ->
  JSON.ofValue (Expense.Num x) = Expense.Num x.
Proof.
  destruct x as [s|s| |s m e]; cbn; try discriminate; reflexivity.
Qed.

Lemma ofExpense_id (e : Expense.t) : Expense.id (JSON.ofExpense e) = Expense.id e.
Proof. reflexivity. Qed.

Lemma ofExpense_timestamp (e : Expense.t) :
  Expense.timestamp (JSON.ofExpense e) = Expense.timestamp e.
Proof. reflexivity. Qed.

Lemma ofValue_idem (v : Expense.value) : JSON.ofValue (JSON.ofValue v) = JSON.ofValue v.
Proof. destruct v as [[s|s| |s m e]|]; reflexivity. Qed.

Lemma ofExpense_idem (e : Expense.t) :
  JSON.ofExpense (JSON.ofExpense e) = JSON.ofExpense e.
Proof. unfold JSON.ofExpense; cbn. now rewrite ofValue_idem. Qed.

(** ** [loadExpenses] sorts newest first, and stably *)


Lemma insert_Permutation (x : Expense.t) (l : list Expense.t) :
  Permutation (x :: l) (JS.insert ExpenseDashboard.byTimestamp x l).
Proof.
  induction l as [|y l IH]; cbn; [apply Permutation_refl|].
  destruct (0 <? ExpenseDashboard.byTimestamp x y).
  - eapply perm_trans; [apply perm_swap|]. now apply perm_skip.
  - apply Permutation_refl.
Qed.

Lemma sort_Permutation (l : list Expense.t) : Permutation l (JS.sort ExpenseDashboard.byTimestamp l).
Proof.
  induction l as [|x l IH]; cbn; [constructor|].
  eapply perm_trans; [|apply insert_Permutation]. now apply perm_skip.
Qed.

Lemma insert_newestFirst (x : Expense.t) (l : list Expense.t) :
  newestFirst l -> newestFirst (JS.insert ExpenseDashboard.byTimestamp x l).
Proof.
  unfold newestFirst.
  induction l as [|y l IH]; cbn; intro S.
  - constructor; constructor.
  - apply StronglySorted_inv in S as [S F].
    destruct (0 <? ExpenseDashboard.byTimestamp x y) eqn:C; unfold ExpenseDashboard.byTimestamp in C.
    + apply Z.ltb_lt in C. constructor; [now apply IH|].
      eapply Permutation_Forall; [apply insert_Permutation|].
      constructor; [lia | exact F].
    + apply Z.ltb_ge in C. constructor; [now constructor|].
      constructor; [lia|].
      eapply Forall_impl; [|exact F]. cbn. intros; lia.
Qed.

Lemma sort_newestFirst (l : list Expense.t) : newestFirst (JS.sort ExpenseDashboard.byTimestamp l).
Proof.
  induction l as [|x l IH]; cbn; [constructor|].
  now apply insert_newestFirst.
Qed.

Lemma insert_stampedAt (t : JS.time) (x : Expense.t) (l : list Expense.t) :
  stampedAt t (JS.insert ExpenseDashboard.byTimestamp x l) = stampedAt t (x :: l).
Proof.
  unfold stampedAt.
  induction l as [|y l IH]; cbn; [reflexivity|].
  destruct (0 <? ExpenseDashboard.byTimestamp x y) eqn:C; [|reflexivity].
  unfold ExpenseDashboard.byTimestamp in C. apply Z.ltb_lt in C.
  cbn. rewrite IH. cbn.
  destruct (Expense.timestamp y =? t) eqn:Ey, (Expense.timestamp x =? t) eqn:Ex;
    try reflexivity.
  apply Z.eqb_eq in Ey, Ex. lia.
Qed.

Lemma sort_stampedAt (t : JS.time) (l : list Expense.t) :
  stampedAt t (JS.sort ExpenseDashboard.byTimestamp l) = stampedAt t l.
Proof.
  induction l as [|x l IH]; cbn [JS.sort]; [reflexivity|].
  rewrite insert_stampedAt. unfold stampedAt in *. cbn. now rewrite IH.
Qed.

(** Sorting a list that is newest first already changes nothing. *)
Lemma sort_sorted (l : list Expense.t) : newestFirst l -> JS.sort ExpenseDashboard.byTimestamp l = l.
Proof.
  unfold newestFirst.
  induction l as [|x l IH]; cbn; intro S; [reflexivity|].
  apply StronglySorted_inv in S as [S F]. rewrite (IH S).
  destruct l as [|y l]; cbn; [reflexivity|].
  apply Forall_inv in F. unfold ExpenseDashboard.byTimestamp.
  destruct (0 <? Expense.timestamp y - Expense.timestamp x) eqn:C; [|reflexivity].
  apply Z.ltb_lt in C. lia.
Qed.

(** ** What [handleSave] does on each side of the validation *)

Lemma handleSave_valid (w : World) (t1 t2 : JS.time) (s : Settled) :
  valid (form w) ->
  ExpenseDashboard.handleSave t1 t2 s w =
  setModalVisible false
    (AddExpenseModal.resetForm
       (ExpenseDashboard.handleSaveExpense s (recordOf (form w) t1 t2) w)).
Proof.
  intros (Ha & Hn & Hp & Hc & Hd).
  unfold ExpenseDashboard.handleSave, AddExpenseModal.handleSave.
  apply truthy_true in Ha, Hc, Hd. rewrite Ha, Hc, Hd. cbn [negb orb].
  destruct (gt_zero _ Hp) as [_ Hle]. rewrite Hn, Hle. reflexivity.
Qed.

Lemma handleSave_invalid (w : World) (t1 t2 : JS.time) (s : Settled) :
  ~ valid (form w) ->
  exists message,
    validationError message /\
    ExpenseDashboard.handleSave t1 t2 s w = Alert_alert "Error" message w.
Proof.
  intro H.
  unfold ExpenseDashboard.handleSave, AddExpenseModal.handleSave.
  destruct (negb (JS.truthy (Form.amount (form w)))
            || negb (JS.truthy (Form.category (form w)))
            || negb (JS.truthy (Form.date (form w)))) eqn:E1.
  { eexists; split; [left|]; reflexivity. }
  destruct (JS.isNaN (JS.parseFloat (Form.amount (form w)))
            || JS.le (JS.parseFloat (Form.amount (form w))) JS.zero) eqn:E2.
  { eexists; split; [right|]; reflexivity. }
  exfalso. apply H.
  apply orb_false_iff in E1 as [E1 Ed]. apply orb_false_iff in E1 as [Ea Ec].
  apply orb_false_iff in E2 as [En El].
  apply negb_false_iff in Ea, Ec, Ed. apply truthy_true in Ea, Ec, Ed.
  repeat split; auto.
  destruct (SFltb JS.zero (JS.parseFloat (Form.amount (form w)))) eqn:Hp; [reflexivity|].
  destruct (not_gt_zero _ Hp); congruence.
Qed.

Lemma expenses_saveExpenses (s : Settled) (l : list Expense.t) (w : World) :
  expenses (ExpenseDashboard.saveExpenses s l w) = expenses w.
Proof. destruct s; reflexivity. Qed.

Lemma storage_saveExpenses (s : Settled) (l : list Expense.t) (w : World) :
  storage (ExpenseDashboard.saveExpenses s l w) =
  match s with
  | Fulfilled => Some (JSON.stringify l)
  | Rejected => storage w
  end.
Proof. destruct s; reflexivity. Qed.

Lemma alerts_saveExpenses (s : Settled) (l : list Expense.t) (w : World) :
  alerts (ExpenseDashboard.saveExpenses s l w) =
  match s with
  | Fulfilled => alerts w
  | Rejected => ("Error", "Failed to save expenses") :: alerts w
  end.
Proof. destruct s; reflexivity. Qed.

Lemma expenses_handleSave_valid (w : World) (t1 t2 : JS.time) (s : Settled) :
  valid (form w) ->
  expenses (ExpenseDashboard.handleSave t1 t2 s w) =
  recordOf (form w) t1 t2 :: expenses w.
Proof.
  intro V. rewrite (handleSave_valid _ _ _ _ V). cbn.
  unfold ExpenseDashboard.handleSaveExpense. now rewrite expenses_saveExpenses.
Qed.

Lemma storage_handleSave_valid (w : World) (t1 t2 : JS.time) (s : Settled) :
  valid (form w) ->
  storage (ExpenseDashboard.handleSave t1 t2 s w) =
  match s with
  | Fulfilled => Some (JSON.stringify (recordOf (form w) t1 t2 :: expenses w))
  | Rejected => storage w
  end.
Proof.
  intro V. rewrite (handleSave_valid _ _ _ _ V). cbn.
  unfold ExpenseDashboard.handleSaveExpense. now rewrite storage_saveExpenses.
Qed.

(** Validity is decided by the guards of [handleSave]. *)
Lemma valid_dec (f : Form.t) : valid f \/ ~ valid f.
Proof.
  unfold valid.
  destruct (string_dec (Form.amount f) ""); [right; tauto|].
  destruct (string_dec (Form.category f) ""); [right; tauto|].
  destruct (string_dec (Form.date f) ""); [right; tauto|].
  destruct (JS.isNaN (JS.parseFloat (Form.amount f))); [right; intuition discriminate|].
  destruct (SFltb JS.zero (JS.parseFloat (Form.amount f))); [left; tauto|].
  right; intuition discriminate.
Qed.

(** ** Validation and creation of a record *)

(** What the validation does refuse.  A candidate whose amount is missing,
    has no numeric prefix ([parseFloat] gives [NaN]) or is not greater than
    0, or whose category or date is missing, is rejected: [handleSave] raises
    an "Error" alert with one of the two validation messages and does nothing
    else, so that the in-memory collection and the storage item are what they
    were. *)
Theorem handleSave_rejects (w : World) (t1 t2 : JS.time) (s : Settled) :
  Form.amount (form w) = "" \/
  JS.isNaN (JS.parseFloat (Form.amount (form w))) = true \/
  SFltb JS.zero (JS.parseFloat (Form.amount (form w))) = false \/
  Form.category (form w) = "" \/
  Form.date (form w) = "" ->
  exists message,
    validationError message /\
    ExpenseDashboard.handleSave t1 t2 s w = Alert_alert "Error" message w /\
    expenses (ExpenseDashboard.handleSave t1 t2 s w) = expenses w /\
    storage (ExpenseDashboard.handleSave t1 t2 s w) = storage w.
Proof.
  intro H.
  destruct (handleSave_invalid w t1 t2 s) as (message & Hm & E).
  - intros (Ha & Hn & Hp & Hc & Hd).
    destruct H as [H|[H|[H|[H|H]]]]; congruence.
  - exists message. rewrite E. repeat split; auto.
Qed.

Lemma handleSave_rejects_witness :
  JS.isNaN (JS.parseFloat (Form.amount (form (filled letters)))) = true /\
  exists message,
    validationError message /\
    ExpenseDashboard.handleSave march15 march15 Fulfilled (filled letters) =
    Alert_alert "Error" message (filled letters) /\
    expenses (ExpenseDashboard.handleSave march15 march15 Fulfilled (filled letters)) =
    expenses (filled letters) /\
    storage (ExpenseDashboard.handleSave march15 march15 Fulfilled (filled letters)) =
    storage (filled letters).
Proof.
  split; [reflexivity|].
  apply (handleSave_rejects (filled letters) march15 march15 Fulfilled).
  right; left. reflexivity.
Defined.

(** C1.  The code does not refuse every amount that is not a number,
    although its comment says "Validate amount is a valid number":
    [parseFloat] reads the longest numeric prefix and drops the rest.  With
    "1.2.3", which the decimal pad can type, "1,50" and "12abc" as amount,
    [handleSave] raises no alert, puts a record with the amount 1.2, 1 and 12
    in front of the collection and writes it to storage. *)
Theorem handleSave_accepts_numeric_prefix :
  Forall
    (fun '(typed, read) =>
       JS.parseFloat typed = JS.parseFloat read /\
       expenses (ExpenseDashboard.handleSave march15 march15 Fulfilled
                   (filled (Form.mk typed "Food" "03/15/2024" ""))) =
       [Expense.mk "1710504000000" (Expense.Num (JS.parseFloat read))
                   "Food" "03/15/2024" "" march15] /\
       storage (ExpenseDashboard.handleSave march15 march15 Fulfilled
                  (filled (Form.mk typed "Food" "03/15/2024" ""))) =
       Some (JSON.stringify
               [Expense.mk "1710504000000" (Expense.Num (JS.parseFloat read))
                           "Food" "03/15/2024" "" march15]) /\
       alerts (ExpenseDashboard.handleSave march15 march15 Fulfilled
                 (filled (Form.mk typed "Food" "03/15/2024" ""))) = [])
    [("1.2.3", "1.2"); ("1,50", "1"); ("12abc", "12")].
Proof.
  repeat constructor.
Qed.

(** C2, as the code has it.  A valid candidate becomes one record, put in
    front of the in-memory collection, which is otherwise unchanged: its
    amount is the candidate's amount as [parseFloat] reads it, its category,
    date and description are the candidate's, trimmed, its timestamp is the
    clock's instant and its id is the decimal text of the millisecond clock.
    The id is new to the collection provided no record there got its id from
    the same clock reading. *)
Theorem handleSave_appends (w : World) (t1 t2 : JS.time) (s : Settled) :
  valid (form w) ->
  let w' := ExpenseDashboard.handleSave t1 t2 s w in
  let new := recordOf (form w) t1 t2 in
  expenses w' = new :: expenses w /\
  Expense.id new = JS.toString t1 /\
  Expense.timestamp new = t2 /\
  Expense.amount new = Expense.Num (JS.parseFloat (Form.amount (form w))) /\
  Expense.category new = JS.trim (Form.category (form w)) /\
  Expense.date new = JS.trim (Form.date (form w)) /\
  Expense.description new = JS.trim (Form.description (form w)) /\
  ((forall e, In e (expenses w) ->
              exists t, Expense.id e = JS.toString t /\ t <> t1) ->
   ~ In (Expense.id new) (map Expense.id (expenses w))).
Proof.
  intros V w' new. subst w' new.
  rewrite (expenses_handleSave_valid _ _ _ _ V).
  repeat split.
  intros Hids Hin. apply in_map_iff in Hin as (e & He & Hin).
  destruct (Hids e Hin) as (t & Ht & Hne).
  apply Hne. apply toString_inj. cbn in He. congruence.
Qed.

Lemma valid_food : valid food.
Proof. repeat split; discriminate. Qed.

Lemma valid_transport : valid transport.
Proof. repeat split; discriminate. Qed.

Lemma handleSave_appends_witness :
  valid (form (filled food)) /\
  expenses (ExpenseDashboard.handleSave march15 march15 Fulfilled (filled food)) =
  [recordOf food march15 march15].
Proof.
  split; [exact valid_food|].
  apply (handleSave_appends (filled food) march15 march15 Fulfilled valid_food).
Defined.

(** C2 as stated fails: a second valid candidate saved within the same
    millisecond as the first gets the id the first one has. *)
Lemma handleSave_id_not_fresh :
  valid (form (setForm transport foodSaved)) /\
  In (Expense.id (recordOf transport march15 march16))
     (map Expense.id (expenses (setForm transport foodSaved))) /\
  expenses (ExpenseDashboard.handleSave march15 march16 Fulfilled
              (setForm transport foodSaved)) =
  recordOf transport march15 march16 :: expenses (setForm transport foodSaved).
Proof.
  split; [exact valid_transport|]. split; [left; reflexivity|reflexivity].
Qed.

(** C10.  The validation looks at the strings as typed and the record holds
    them trimmed: an accepted candidate is stored with its category, date and
    description trimmed, and a candidate whose category, or date, is made of
    white space only is accepted all the same and stored with the empty string
    there. *)
Theorem handleSave_trims (w : World) (t1 t2 : JS.time) (s : Settled) :
  Form.amount (form w) <> "" ->
  JS.isNaN (JS.parseFloat (Form.amount (form w))) = false ->
  SFltb JS.zero (JS.parseFloat (Form.amount (form w))) = true ->
  Form.category (form w) <> "" ->
  Form.date (form w) <> "" ->
  exists new,
    expenses (ExpenseDashboard.handleSave t1 t2 s w) = new :: expenses w /\
    Expense.category new = JS.trim (Form.category (form w)) /\
    Expense.date new = JS.trim (Form.date (form w)) /\
    Expense.description new = JS.trim (Form.description (form w)) /\
    (allWhiteSpace (Form.category (form w)) = true -> Expense.category new = "") /\
    (allWhiteSpace (Form.date (form w)) = true -> Expense.date new = "").
Proof.
  intros Ha Hn Hp Hc Hd.
  assert (V : valid (form w)) by (repeat split; assumption).
  exists (recordOf (form w) t1 t2).
  rewrite (expenses_handleSave_valid _ _ _ _ V). cbn.
  repeat split; apply trim_allWhiteSpace.
Qed.

Lemma handleSave_trims_witness :
  Form.category blankCategory <> "" /\
  allWhiteSpace (Form.category blankCategory) = true /\
  exists new,
    expenses (ExpenseDashboard.handleSave march15 march15 Fulfilled
                (filled blankCategory)) = [new] /\
    Expense.category new = "" /\
    Expense.description new = "lunch".
Proof.
  split; [discriminate|]. split; [reflexivity|].
  destruct (handleSave_trims (filled blankCategory) march15 march15 Fulfilled)
    as (new & E & Hc & _ & Hdesc & Hblank & _);
    try discriminate; try reflexivity.
  exists new. split; [exact E|]. split; [apply Hblank; reflexivity|exact Hdesc].
Defined.

(** ** Writing to storage and loading from it *)

(** C3, as the code has it.  A mutating operation changes the in-memory
    collection, whatever becomes of the write: a save puts the new record in
    front, a confirmed deletion takes the records with the id out.  It hands
    the whole new collection to [setItem]: when the write is fulfilled the
    storage item is the JSON text of the in-memory collection; when it is
    rejected the item is what it was before, the in-memory change stays and
    the user is told.  The item is never anything in between. *)
Theorem mutation_persisted (w : World) (ev : Event) :
  mutating ev ->
  expenses (step w ev) =
    match ev with
    | Save candidate Date_now new_Date _ =>
        recordOf candidate Date_now new_Date :: expenses w
    | Remove id _ _ => filter (ExpenseDashboard.keeps id) (expenses w)
    | _ => expenses w
    end /\
  match setItemOf ev with
  | Fulfilled => storage (step w ev) = Some (JSON.stringify (expenses (step w ev)))
  | Rejected =>
      storage (step w ev) = storage w /\
      hd_error (alerts (step w ev)) = Some ("Error", "Failed to save expenses")
  end.
Proof.
  destruct ev as [f t1 t2 s|id [|] s|g|g]; cbn [mutating setItemOf]; try contradiction.
  - intro V. cbn [step].
    set (w0 := setForm f (setModalVisible true w)).
    assert (V0 : valid (form w0)) by exact V.
    rewrite (storage_handleSave_valid _ _ _ _ V0),
            (expenses_handleSave_valid _ _ _ _ V0).
    split; [reflexivity|].
    destruct s; [reflexivity|].
    split; [reflexivity|].
    rewrite (handleSave_valid _ _ _ _ V0). reflexivity.
  - intros _. cbn [step]. unfold ExpenseDashboard.deleteExpense.
    rewrite expenses_saveExpenses, storage_saveExpenses, alerts_saveExpenses.
    split; [reflexivity|]. destruct s; cbn; auto.
Qed.

Lemma mutation_persisted_witness :
  mutating (Save food march15 march15 Fulfilled) /\
  mutating (Save food march15 march15 Rejected) /\
  storage (step installed (Save food march15 march15 Fulfilled)) =
  Some (JSON.stringify (expenses (step installed (Save food march15 march15 Fulfilled)))) /\
  expenses (step installed (Save food march15 march15 Rejected)) =
  [recordOf food march15 march15] /\
  storage (step installed (Save food march15 march15 Rejected)) = None.
Proof.
  split; [exact valid_food|]. split; [exact valid_food|].
  split.
  - exact (proj2 (mutation_persisted installed (Save food march15 march15 Fulfilled)
                                     valid_food)).
  - destruct (mutation_persisted installed (Save food march15 march15 Rejected)
                                 valid_food) as (E & S & _).
    split; [exact E|exact S].
Defined.

(** C3 as stated fails: when [setItem] rejects, the record is in memory and
    not in storage. *)
Lemma rejected_write_lags :
  mutating (Save food march15 march15 Rejected) /\
  foodUnwritten = step installed (Save food march15 march15 Rejected) /\
  expenses foodUnwritten = [recordOf food march15 march15] /\
  storage foodUnwritten = None /\
  storage foodUnwritten <> Some (JSON.stringify (expenses foodUnwritten)).
Proof.
  split; [exact valid_food|]. do 3 (split; [reflexivity|]). discriminate.
Qed.

(** C5, as the code has it.  When storage holds no data, [loadExpenses]
    leaves the in-memory collection as it is and raises no alert; when the
    read is rejected or the data is not the text of a collection, it raises
    the "Failed to load expenses" alert, logs the error and again leaves the
    collection as it is.  In both cases loading ends, and at process start,
    where the collection is empty, it stays empty. *)
Theorem loadExpenses_failure (w : World) (getItem : Settled) :
  (getItem = Fulfilled /\ noData (storage w) ->
   expenses (ExpenseDashboard.loadExpenses getItem w) = expenses w /\
   alerts (ExpenseDashboard.loadExpenses getItem w) = alerts w /\
   loading (ExpenseDashboard.loadExpenses getItem w) = false) /\
  (getItem = Rejected \/ undecodable (storage w) ->
   expenses (ExpenseDashboard.loadExpenses getItem w) = expenses w /\
   alerts (ExpenseDashboard.loadExpenses getItem w) =
   ("Error", "Failed to load expenses") :: alerts w /\
   console (ExpenseDashboard.loadExpenses getItem w) =
   "Error loading expenses:" :: console w /\
   loading (ExpenseDashboard.loadExpenses getItem w) = false) /\
  (getItem = Rejected \/ noData (storage w) \/ undecodable (storage w) ->
   expenses (ExpenseDashboard.loadExpenses getItem
               (ExpenseDashboard.initial (storage w))) = []).
Proof.
  unfold ExpenseDashboard.loadExpenses, noData, undecodable.
  split; [|split].
  - intros [-> [E|E]]; cbn; rewrite E; auto.
  - intros [->|[E|E]]; [auto|destruct getItem; cbn; rewrite ?E; auto ..].
  - intros [->|[[E|E]|[E|E]]]; [auto|destruct getItem; cbn; rewrite ?E; auto ..].
Qed.

Lemma loadExpenses_failure_witness :
  undecodable (Some JSON.Malformed) /\
  expenses (ExpenseDashboard.loadExpenses Fulfilled
              (ExpenseDashboard.initial (Some JSON.Malformed))) = [] /\
  alerts (ExpenseDashboard.loadExpenses Fulfilled
            (ExpenseDashboard.initial (Some JSON.Malformed))) =
  [("Error", "Failed to load expenses")].
Proof.
  split; [left; reflexivity|].
  destruct (loadExpenses_failure (ExpenseDashboard.initial (Some JSON.Malformed)) Fulfilled)
    as (_ & (He & Ha & _) & _).
  - right; left; reflexivity.
  - split; [exact He|exact Ha].
Defined.

(** C5 as stated fails: a refresh while storage holds no data, after a save
    whose write was rejected, does not empty the collection. *)
Lemma refresh_without_data_keeps_collection :
  storage foodUnwritten = None /\
  expenses (ExpenseDashboard.loadExpenses Fulfilled foodUnwritten) =
  [recordOf food march15 march15].
Proof.
  split; reflexivity.
Qed.

(** ** Deleting by id *)

Lemma keeps_true (id : string) (e : Expense.t) :
  ExpenseDashboard.keeps id e = true <-> Expense.id e <> id.
Proof.
  unfold ExpenseDashboard.keeps. rewrite negb_true_iff. apply String.eqb_neq.
Qed.

Lemma filter_keeps_absent (id : string) (l : list Expense.t) :
  ~ In id (map Expense.id l) -> filter (ExpenseDashboard.keeps id) l = l.
Proof.
  induction l as [|e l IH]; cbn; intro H; [reflexivity|].
  destruct (ExpenseDashboard.keeps id e) eqn:K.
  - rewrite IH; auto.
  - exfalso. apply H. left.
    unfold ExpenseDashboard.keeps in K. apply negb_false_iff in K. now apply String.eqb_eq in K.
Qed.

(** With distinct ids, filtering an id out takes one record out and leaves
    the others in place. *)
Lemma filter_keeps_present (id : string) (l : list Expense.t) :
  NoDup (map Expense.id l) -> In id (map Expense.id l) ->
  exists l1 e l2,
    l = (l1 ++ e :: l2)%list /\ Expense.id e = id /\ filter (ExpenseDashboard.keeps id) l = (l1 ++ l2)%list.
Proof.
  induction l as [|x l IH]; cbn; intros N H; [contradiction|].
  inversion N as [|? ? Hx N']; subst.
  destruct (ExpenseDashboard.keeps id x) eqn:K.
  - apply keeps_true in K. destruct H as [H|H]; [contradiction|].
    destruct (IH N' H) as (l1 & e & l2 & -> & He & Hf).
    exists (x :: l1), e, l2. cbn. now rewrite Hf.
  - unfold ExpenseDashboard.keeps in K. apply negb_false_iff in K. apply String.eqb_eq in K.
    exists [], x, l. cbn. repeat split; auto.
    apply filter_keeps_absent. now rewrite <- K.
Qed.

(** C7, as the code has it.  A confirmed [deleteExpense] keeps the records
    whose id differs from the given one, and only those: every record with
    the id goes, and no other.  It hands the result to [saveExpenses]: the
    storage item becomes the text of the resulting collection when the write
    is fulfilled; when the write is rejected it stays what it was and the
    "Failed to save expenses" alert is raised after the confirmation dialog.
    When ids are distinct and the id is present, exactly one record goes and
    the others stay in place; when the id is absent the in-memory collection
    is unchanged and, the write being fulfilled, nothing but the confirmation
    dialog was raised. *)
Theorem deleteExpense_removes (w : World) (id : string) (s : Settled) :
  let w' := ExpenseDashboard.deleteExpense id Delete s w in
  (forall e, In e (expenses w') <-> In e (expenses w) /\ Expense.id e <> id) /\
  storage w' =
    match s with
    | Fulfilled => Some (JSON.stringify (expenses w'))
    | Rejected => storage w
    end /\
  alerts w' =
    match s with
    | Fulfilled =>
        ("Delete Expense", "Are you sure you want to delete this expense?")
          :: alerts w
    | Rejected =>
        ("Error", "Failed to save expenses")
          :: ("Delete Expense", "Are you sure you want to delete this expense?")
          :: alerts w
    end /\
  (NoDup (map Expense.id (expenses w)) -> In id (map Expense.id (expenses w)) ->
   exists l1 e l2,
     expenses w = (l1 ++ e :: l2)%list /\ Expense.id e = id /\
     expenses w' = (l1 ++ l2)%list) /\
  (~ In id (map Expense.id (expenses w)) ->
   expenses w' = expenses w /\
   (s = Fulfilled ->
    alerts w' =
    ("Delete Expense", "Are you sure you want to delete this expense?") :: alerts w)).
Proof.
  cbv zeta. unfold ExpenseDashboard.deleteExpense.
  rewrite expenses_saveExpenses, storage_saveExpenses, alerts_saveExpenses.
  cbn [expenses setExpenses Alert_alert storage alerts].
  split; [|split; [|split; [|split]]].
  - intro e. rewrite filter_In, keeps_true. tauto.
  - destruct s; reflexivity.
  - destruct s; reflexivity.
  - apply filter_keeps_present.
  - intro H. split; [now apply filter_keeps_absent|]. now intros ->.
Qed.

Lemma deleteExpense_removes_witness :
  NoDup (map Expense.id (expenses bothSaved)) /\
  In "1710504000000" (map Expense.id (expenses bothSaved)) /\
  expenses (ExpenseDashboard.deleteExpense "1710504000000" Delete Fulfilled bothSaved) =
  [recordOf transport march16 march16].
Proof.
  assert (N : NoDup (map Expense.id (expenses bothSaved))).
  { repeat constructor; cbn; intuition discriminate. }
  assert (I : In "1710504000000" (map Expense.id (expenses bothSaved))).
  { right; left; reflexivity. }
  split; [exact N|]. split; [exact I|].
  destruct (deleteExpense_removes bothSaved "1710504000000" Fulfilled)
    as (_ & _ & _ & H & _).
  destruct (H N I) as (l1 & e & l2 & E & Hid & ->).
  destruct l1 as [|a [|b l1]]; cbn in E.
  - injection E as <- <-. discriminate Hid.
  - injection E as <- <- <-. reflexivity.
  - injection E as _ _ E. destruct l1; discriminate E.
Defined.

(** C7 as stated fails: when the write is rejected, the record leaves the
    in-memory collection and stays in storage. *)
Lemma rejected_delete_not_persisted :
  In "1710504000000" (map Expense.id (expenses bothSaved)) /\
  expenses (ExpenseDashboard.deleteExpense "1710504000000" Delete Rejected bothSaved) =
  [recordOf transport march16 march16] /\
  storage (ExpenseDashboard.deleteExpense "1710504000000" Delete Rejected bothSaved) =
  Some (JSON.stringify [recordOf transport march16 march16;
                        recordOf food march15 march15]) /\
  storage (ExpenseDashboard.deleteExpense "1710504000000" Delete Rejected bothSaved) <>
  Some (JSON.stringify
          (expenses (ExpenseDashboard.deleteExpense "1710504000000" Delete Rejected
                                                    bothSaved))).
Proof.
  split; [right; left; reflexivity|]. do 2 (split; [reflexivity|]).
  cbn. discriminate.
Qed.

(** Where two records share an id (two saves within one millisecond), one
    deletion takes both. *)
Lemma shared_id_deleted_together :
  map Expense.id
      (expenses (run [Save food march15 march15 Fulfilled;
                      Save transport march15 march16 Fulfilled] installed)) =
  ["1710504000000"; "1710504000000"] /\
  expenses (run [Save food march15 march15 Fulfilled;
                 Save transport march15 march16 Fulfilled;
                 Remove "1710504000000" Delete Fulfilled] installed) = [].
Proof.
  split; reflexivity.
Qed.

(** ** Where the records of a state come from *)

Lemma storage_loadExpenses (g : Settled) (w : World) :
  storage (ExpenseDashboard.loadExpenses g w) = storage w.
Proof.
  unfold ExpenseDashboard.loadExpenses.
  destruct w as [l0 m r ld f [[| |[l|]]|] a c], g; reflexivity.
Qed.

(** [loadExpenses] replaces the collection by the stored records, sorted, or
    leaves it alone. *)
Lemma expenses_loadExpenses (g : Settled) (w : World) :
  expenses (ExpenseDashboard.loadExpenses g w) = expenses w \/
  (g = Fulfilled /\
   exists l, storage w = Some (JSON.Text (JSON.Array l)) /\
             expenses (ExpenseDashboard.loadExpenses g w) =
             JS.sort ExpenseDashboard.byTimestamp l).
Proof.
  unfold ExpenseDashboard.loadExpenses.
  destruct w as [l0 m r ld f [[| |[l|]]|] a c], g; cbn; try (now left).
  right. split; [reflexivity|]. now exists l.
Qed.

Lemma loadExpenses_sorts (w : World) (l : list Expense.t) :
  storage w = Some (JSON.Text (JSON.Array l)) ->
  expenses (ExpenseDashboard.loadExpenses Fulfilled w) =
  JS.sort ExpenseDashboard.byTimestamp l.
Proof.
  unfold ExpenseDashboard.loadExpenses.
  destruct w as [l0 m r ld f st a c]. cbn [storage]. intros ->. reflexivity.
Qed.

Lemma stored_stringify (w : World) (l : list Expense.t) :
  storage w = Some (JSON.stringify l) -> stored w = map JSON.ofExpense l.
Proof. unfold stored. now intros ->. Qed.

Lemma stored_same (w w' : World) : storage w' = storage w -> stored w' = stored w.
Proof. unfold stored. now intros ->. Qed.

(** After a step the storage item is the old one or the text of the new
    collection. *)
Lemma storage_step (w : World) (ev : Event) :
  storage (step w ev) = storage w \/
  storage (step w ev) = Some (JSON.stringify (expenses (step w ev))).
Proof.
  destruct ev as [f t1 t2 s|id [|] s|g|g]; cbn [step].
  - set (w0 := setForm f (setModalVisible true w)).
    destruct (valid_dec f) as [V|V].
    + assert (V0 : valid (form w0)) by exact V.
      rewrite (storage_handleSave_valid _ _ _ _ V0),
              (expenses_handleSave_valid _ _ _ _ V0).
      destruct s; auto.
    + destruct (handleSave_invalid w0 t1 t2 s V) as (m & _ & ->). now left.
  - now left.
  - unfold ExpenseDashboard.deleteExpense.
    rewrite storage_saveExpenses, expenses_saveExpenses. destruct s; auto.
  - left. unfold ExpenseDashboard.onRefresh. cbn [storage setRefreshing].
    now rewrite storage_loadExpenses.
  - left. now rewrite storage_loadExpenses.
Qed.

(** The collection after a step: the new record in front of the old
    collection, a part of the old collection, or the stored records sorted. *)
Lemma expenses_step (w : World) (ev : Event) :
  (exists f t1 t2 s,
      ev = Save f t1 t2 s /\ valid f /\
      expenses (step w ev) = recordOf f t1 t2 :: expenses w) \/
  (exists id, expenses (step w ev) = filter (ExpenseDashboard.keeps id) (expenses w)) \/
  expenses (step w ev) = expenses w \/
  expenses (step w ev) = [] \/
  expenses (step w ev) = JS.sort ExpenseDashboard.byTimestamp (stored w).
Proof.
  destruct ev as [f t1 t2 s|id [|] s|g|g]; cbn [step].
  - set (w0 := setForm f (setModalVisible true w)).
    destruct (valid_dec f) as [V|V].
    + left. exists f, t1, t2, s. split; [reflexivity|]. split; [exact V|].
      assert (V0 : valid (form w0)) by exact V.
      now rewrite (expenses_handleSave_valid _ _ _ _ V0).
    + destruct (handleSave_invalid w0 t1 t2 s V) as (m & _ & ->).
      right; right; left. reflexivity.
  - right; right; left. reflexivity.
  - right; left. exists id. unfold ExpenseDashboard.deleteExpense.
    now rewrite expenses_saveExpenses.
  - unfold ExpenseDashboard.onRefresh. cbn [expenses setRefreshing].
    destruct (expenses_loadExpenses g (setRefreshing true w))
      as [E|(_ & l & Hs & E)]; rewrite E.
    + right; right; left. reflexivity.
    + right; right; right; right. unfold stored. cbn in Hs. now rewrite Hs.
  - destruct (expenses_loadExpenses g (ExpenseDashboard.initial (storage w)))
      as [E|(_ & l & Hs & E)]; rewrite E.
    + right; right; right; left. reflexivity.
    + right; right; right; right. unfold stored. cbn in Hs. now rewrite Hs.
Qed.

(** A property of records that JSON text preserves, that holds of the records
    in memory and in storage and of the record a save creates, holds of the
    records in memory and in storage after the step. *)
Lemma step_Forall (P : Expense.t -> Prop) (w : World) (ev : Event) :
  (forall e, P e -> P (JSON.ofExpense e)) ->
  Forall P (expenses w) -> Forall P (stored w) ->
  (forall f t1 t2 s, ev = Save f t1 t2 s -> valid f -> P (recordOf f t1 t2)) ->
  Forall P (expenses (step w ev)) /\ Forall P (stored (step w ev)).
Proof.
  intros HP Hm Hs Hnew.
  assert (M : Forall P (expenses (step w ev))).
  { destruct (expenses_step w ev)
      as [(f & t1 & t2 & s & -> & V & E)|[(id & E)|[E|[E|E]]]]; rewrite E.
    - constructor; [now apply (Hnew f t1 t2 s)|exact Hm].
    - apply Forall_forall. intros e He. apply filter_In in He as [He _].
      now apply (proj1 (Forall_forall _ _) Hm).
    - exact Hm.
    - constructor.
    - eapply Permutation_Forall; [apply sort_Permutation|exact Hs]. }
  split; [exact M|].
  destruct (storage_step w ev) as [E|E].
  - now rewrite (stored_same _ _ E).
  - rewrite (stored_stringify _ _ E).
    apply Forall_forall. intros e He. apply in_map_iff in He as (e0 & <- & He0).
    apply HP. now apply (proj1 (Forall_forall _ _) M).
Qed.

Lemma run_snoc (evs : list Event) (ev : Event) (w : World) :
  run (evs ++ [ev]) w = step (run evs w) ev.
Proof. unfold run. now rewrite fold_left_app. Qed.

Lemma created_mono (evs : list Event) (ev : Event) (e : Expense.t) :
  created evs e -> created (evs ++ [ev]) e.
Proof.
  intros (f & t1 & t2 & s & Hin & V & He).
  exists f, t1, t2, s. split; [apply in_or_app; now left|]. now split.
Qed.

(** Every record of a reachable state, in memory or in storage, was created
    by a save of the trace and is as that save made it. *)
Lemma run_created (evs : list Event) :
  Forall (created evs) (expenses (run evs installed)) /\
  Forall (created evs) (stored (run evs installed)).
Proof.
  induction evs as [|ev evs [IHm IHs]] using rev_ind.
  - split; constructor.
  - rewrite run_snoc. apply step_Forall.
    + intros e (f & t1 & t2 & s & Hin & V & [->| ->]);
        (exists f, t1, t2, s; split; [exact Hin|]; split; [exact V|]; right);
        [reflexivity|apply ofExpense_idem].
    + eapply Forall_impl; [|exact IHm]. intro. apply created_mono.
    + eapply Forall_impl; [|exact IHs]. intro. apply created_mono.
    + intros f t1 t2 s -> V. exists f, t1, t2, s.
      split; [apply in_or_app; right; now left|]. split; [exact V|now left].
Qed.

(** ** Order and identity along a trace *)

Lemma StronglySorted_snoc {A : Type} (R : A -> A -> Prop) (l : list A) (x : A) :
  StronglySorted R (l ++ [x]) ->
  StronglySorted R l /\ Forall (fun y => R y x) l.
Proof.
  induction l as [|a l IH]; cbn; intro S.
  - split; constructor.
  - apply StronglySorted_inv in S as [S F].
    destruct (IH S) as [S' F'].
    apply Forall_app in F as [Fl Fx]. apply Forall_inv in Fx.
    split; constructor; auto.
Qed.

Lemma StronglySorted_filter {A : Type} (R : A -> A -> Prop) (p : A -> bool) (l : list A) :
  StronglySorted R l -> StronglySorted R (filter p l).
Proof.
  induction 1 as [|a l S IH F]; cbn; [constructor|].
  destruct (p a); [|exact IH].
  constructor; [exact IH|].
  apply Forall_forall. intros x Hx. apply filter_In in Hx as [Hx _].
  now apply (proj1 (Forall_forall _ _) F).
Qed.

(** Deleting by id keeps distinct ids distinct. *)
Lemma filter_keeps_NoDup (id : string) (l : list Expense.t) :
  NoDup (map Expense.id l) ->
  NoDup (map Expense.id (filter (ExpenseDashboard.keeps id) l)).
Proof.
  intro N. induction l as [|a l IH]; cbn; [constructor|].
  inversion N as [|? ? Ha N']; subst.
  destruct (ExpenseDashboard.keeps id a); cbn; [|auto].
  constructor; [|auto].
  intro H. apply Ha. apply in_map_iff in H as (x & E & Hx).
  apply filter_In in Hx as [Hx _]. apply in_map_iff. now exists x.
Qed.

Lemma idReadings_snoc (evs : list Event) (ev : Event) :
  idReadings (evs ++ [ev]) = (idReadings evs ++ idReadings [ev])%list.
Proof. unfold idReadings. apply flat_map_app. Qed.

Lemma stampReadings_snoc (evs : list Event) (ev : Event) :
  stampReadings (evs ++ [ev]) = (stampReadings evs ++ stampReadings [ev])%list.
Proof. unfold stampReadings. apply flat_map_app. Qed.

(** The id of a created record is the text of the id reading of its save,
    and its timestamp the other reading. *)
Lemma created_id (evs : list Event) (e : Expense.t) :
  created evs e ->
  exists t, In t (idReadings evs) /\ Expense.id e = JS.toString t.
Proof.
  intros (f & t1 & t2 & s & Hin & _ & He).
  exists t1. split.
  - unfold idReadings. apply in_flat_map. eexists; split; [exact Hin|now left].
  - destruct He as [-> | ->]; reflexivity.
Qed.

Lemma created_timestamp (evs : list Event) (e : Expense.t) :
  created evs e -> In (Expense.timestamp e) (stampReadings evs).
Proof.
  intros (f & t1 & t2 & s & Hin & _ & He).
  unfold stampReadings. apply in_flat_map. eexists; split; [exact Hin|].
  destruct He as [-> | ->]; now left.
Qed.

Lemma map_id_ofExpense (l : list Expense.t) :
  map Expense.id (map JSON.ofExpense l) = map Expense.id l.
Proof. rewrite map_map. apply map_ext. intro. reflexivity. Qed.

(** While the id readings of the saves are pairwise distinct, so are the ids
    in memory and in storage. *)
Lemma run_NoDup (evs : list Event) :
  NoDup (idReadings evs) ->
  NoDup (map Expense.id (expenses (run evs installed))) /\
  NoDup (map Expense.id (stored (run evs installed))).
Proof.
  induction evs as [|ev evs IH] using rev_ind; intro N.
  - split; constructor.
  - rewrite idReadings_snoc in N.
    destruct (IH (NoDup_app_remove_r _ _ N)) as [IHm IHs]. clear IH.
    destruct (run_created evs) as [Cm _].
    rewrite run_snoc. set (w := run evs installed) in *.
    assert (M : NoDup (map Expense.id (expenses (step w ev)))).
    { destruct (expenses_step w ev)
        as [(f & t1 & t2 & s & -> & V & E)|[(id & E)|[E|[E|E]]]]; rewrite E.
      - cbn [map]. constructor; [|exact IHm].
        intro H. apply in_map_iff in H as (e & He & Hin).
        apply (proj1 (Forall_forall _ _) Cm) in Hin.
        destruct (created_id _ _ Hin) as (t & Ht & Hid).
        cbn in He. rewrite Hid in He. apply toString_inj in He. subst t.
        cbn in N. apply NoDup_remove_2 in N. apply N.
        rewrite app_nil_r. exact Ht.
      - now apply filter_keeps_NoDup.
      - exact IHm.
      - constructor.
      - eapply Permutation_NoDup; [|exact IHs].
        apply Permutation_map, sort_Permutation. }
    split; [exact M|].
    destruct (storage_step w ev) as [E|E].
    + now rewrite (stored_same _ _ E).
    + now rewrite (stored_stringify _ _ E), map_id_ofExpense.
Qed.

(** While the clock does not run backwards from one save to the next, the
    collection is newest first. *)
Lemma run_newestFirst (evs : list Event) :
  nondecreasing (stampReadings evs) ->
  newestFirst (expenses (run evs installed)).
Proof.
  induction evs as [|ev evs IH] using rev_ind; intro S.
  - constructor.
  - rewrite stampReadings_snoc in S.
    destruct (run_created evs) as [Cm _].
    rewrite run_snoc. set (w := run evs installed) in *.
    destruct (expenses_step w ev)
      as [(f & t1 & t2 & s & -> & V & E)|[(id & E)|[E|[E|E]]]]; rewrite E.
    + cbn in S. apply StronglySorted_snoc in S as [S F].
      constructor; [now apply IH|].
      apply Forall_forall. intros e He.
      apply (proj1 (Forall_forall _ _) Cm) in He.
      apply created_timestamp in He.
      apply (proj1 (Forall_forall _ _) F) in He. exact He.
    + apply StronglySorted_filter. apply IH.
      unfold nondecreasing in *.
      destruct ev as [? ? t ?| | |]; cbn in S; rewrite ?app_nil_r in S; auto.
      now apply StronglySorted_snoc in S.
    + apply IH.
      unfold nondecreasing in *.
      destruct ev as [? ? t ?| | |]; cbn in S; rewrite ?app_nil_r in S; auto.
      now apply StronglySorted_snoc in S.
    + constructor.
    + apply sort_newestFirst.
Qed.

(** C4, as the code has it.  [loadExpenses] puts the stored records newest
    first by a stable sort: the result is the stored records rearranged, no
    record comes before a more recent one, and records with the same
    timestamp stay in their stored order.  Saving puts the new record in
    front without sorting, so that every reachable collection is newest first
    as long as the clock does not run backwards from one save to the next;
    and after two saves in a row the second record is at index 0 and the
    first at index 1. *)
Theorem collection_order :
  (forall (w : World) (l : list Expense.t),
      storage w = Some (JSON.Text (JSON.Array l)) ->
      Permutation l (expenses (ExpenseDashboard.loadExpenses Fulfilled w)) /\
      newestFirst (expenses (ExpenseDashboard.loadExpenses Fulfilled w)) /\
      forall t, stampedAt t (expenses (ExpenseDashboard.loadExpenses Fulfilled w)) =
                stampedAt t l) /\
  (forall evs : list Event,
      nondecreasing (stampReadings evs) ->
      newestFirst (expenses (run evs installed))) /\
  (forall (w : World) (f1 f2 : Form.t) (a1 a2 b1 b2 : JS.time) (s1 s2 : Settled),
      valid f1 -> valid f2 ->
      expenses (run [Save f1 a1 a2 s1; Save f2 b1 b2 s2] w) =
      recordOf f2 b1 b2 :: recordOf f1 a1 a2 :: expenses w).
Proof.
  split; [|split].
  - intros w l E.
    rewrite (loadExpenses_sorts _ _ E). split; [apply sort_Permutation|].
    split; [apply sort_newestFirst|]. intro t. apply sort_stampedAt.
  - exact run_newestFirst.
  - intros w f1 f2 a1 a2 b1 b2 s1 s2 V1 V2. cbn [run fold_left step].
    set (w1 := setForm f1 (setModalVisible true w)).
    assert (V1' : valid (form w1)) by exact V1.
    set (w2 := setForm f2 (setModalVisible true
                 (ExpenseDashboard.handleSave a1 a2 s1 w1))).
    assert (V2' : valid (form w2)) by exact V2.
    rewrite (expenses_handleSave_valid _ _ _ _ V2').
    cbn [w2 expenses setForm setModalVisible form].
    now rewrite (expenses_handleSave_valid _ _ _ _ V1').
Qed.

Lemma collection_order_witness :
  nondecreasing (stampReadings [Save food march15 march15 Fulfilled;
                                Save transport march16 march16 Fulfilled]) /\
  newestFirst (expenses bothSaved) /\
  expenses bothSaved =
  [recordOf transport march16 march16; recordOf food march15 march15].
Proof.
  assert (S : nondecreasing (stampReadings [Save food march15 march15 Fulfilled;
                                            Save transport march16 march16 Fulfilled])).
  { repeat constructor. discriminate. }
  destruct collection_order as (_ & Hrun & Htwo).
  split; [exact S|]. split; [exact (Hrun _ S)|].
  exact (Htwo installed food transport march15 march15 march16 march16
              Fulfilled Fulfilled valid_food valid_transport).
Defined.

(** C4 as stated fails: when the clock is set back between two saves, the
    record saved last is in front although it is the older one. *)
Lemma clock_set_back_breaks_order :
  ~ newestFirst (expenses (run [Save food march16 march16 Fulfilled;
                                Save transport march15 march15 Fulfilled] installed)).
Proof.
  intro S. apply StronglySorted_inv in S as [_ F].
  apply Forall_inv in F. cbn in F. unfold march15, march16 in F. lia.
Qed.

(** C9, as the code has it.  The id of a record is the decimal text of the
    millisecond clock read by the save that created it, and no operation
    rewrites it: every record of a reachable collection is as a save of the
    trace made it.  So ids are pairwise distinct in every state reached by
    saves whose id readings are pairwise distinct, and two saves with
    different readings give different ids. *)
Theorem ids_distinct (evs : list Event) :
  NoDup (idReadings evs) ->
  NoDup (map Expense.id (expenses (run evs installed))) /\
  (forall e, In e (expenses (run evs installed)) ->
     created evs e /\
     exists t, In t (idReadings evs) /\ Expense.id e = JS.toString t) /\
  (forall (f f' : Form.t) (t1 t2 t1' t2' : JS.time),
     t1 <> t1' ->
     Expense.id (recordOf f t1 t2) <> Expense.id (recordOf f' t1' t2')).
Proof.
  intro N. split; [now apply run_NoDup|]. split.
  - intros e He.
    destruct (run_created evs) as [Cm _].
    apply (proj1 (Forall_forall _ _) Cm) in He.
    split; [exact He|now apply created_id].
  - intros f f' t1 t2 t1' t2' Hne H. apply Hne. now apply toString_inj.
Qed.

Lemma ids_distinct_witness :
  NoDup (idReadings [Save food march15 march15 Fulfilled;
                     Save transport march16 march16 Fulfilled]) /\
  NoDup (map Expense.id (expenses bothSaved)).
Proof.
  assert (N : NoDup (idReadings [Save food march15 march15 Fulfilled;
                                 Save transport march16 march16 Fulfilled])).
  { repeat constructor; cbn; intuition discriminate. }
  split; [exact N|]. exact (proj1 (ids_distinct _ N)).
Defined.

(** C9 as stated fails: two saves within one millisecond leave two records
    with one id. *)
Lemma same_millisecond_same_id :
  ~ NoDup (map Expense.id
             (expenses (run [Save food march15 march15 Fulfilled;
                             Save transport march15 march15 Fulfilled] installed))).
Proof.
  intro N. inversion N as [|? ? H _]; subst. apply H. left. reflexivity.
Qed.

(** ** Statistics *)

Lemma inMonth_fallsIn (tza : JS.time -> Z) (month year : Z) (e : Expense.t) :
  ExpenseDashboard.inMonth tza month year e =
  if fallsIn_dec tza month year e then true else false.
Proof.
  unfold ExpenseDashboard.inMonth.
  destruct (fallsIn_dec tza month year e) as [[Hm Hy]|H].
  - apply andb_true_iff. split; now apply Z.eqb_eq.
  - apply not_true_is_false. intro E. apply H.
    apply andb_true_iff in E as [Hm Hy]. split; now apply Z.eqb_eq.
Qed.

Lemma fold_addAmount (l : list Expense.t) :
  fold_left ExpenseDashboard.addAmount l JS.zero = sumOfAmounts l.
Proof.
  unfold sumOfAmounts. rewrite fold_left_rev_right. reflexivity.
Qed.

Lemma recordsIn_none (tza : JS.time -> Z) (month year : Z) (l : list Expense.t) :
  (forall e, In e l -> ~ fallsIn tza month year e) ->
  recordsIn tza month year l = [].
Proof.
  unfold recordsIn.
  induction l as [|e l IH]; cbn; intro H; [reflexivity|].
  destruct (fallsIn_dec tza month year e) as [F|_].
  - exfalso. apply (H e); auto.
  - apply IH. intros x Hx. apply H. now right.
Qed.

(** C6.  [getExpenseStats] reads the collection and changes nothing: it is a
    function of the collection, of the reference month and year (those of the
    clock, in local time) and of nothing else in the state.  Its total is the
    sum of the amounts of all records and its count their number; its monthly
    total is the sum of the amounts of the records whose timestamp falls in
    the reference month and year, and its monthly count their number; both
    are 0 when no record falls there. *)
Theorem getExpenseStats_sums (tza : JS.time -> Z) (now1 now2 : JS.time) (w : World) :
  let stats := ExpenseDashboard.getExpenseStats tza now1 now2 w in
  let month := JS.getMonth tza now1 in
  let year := JS.getFullYear tza now2 in
  ExpenseDashboard.total stats = sumOfAmounts (expenses w) /\
  ExpenseDashboard.count stats = List.length (expenses w) /\
  ExpenseDashboard.monthly stats =
    sumOfAmounts (recordsIn tza month year (expenses w)) /\
  ExpenseDashboard.monthlyCount stats =
    List.length (recordsIn tza month year (expenses w)) /\
  (forall e, In e (recordsIn tza month year (expenses w)) <->
             In e (expenses w) /\ fallsIn tza month year e) /\
  ((forall e, In e (expenses w) -> ~ fallsIn tza month year e) ->
   ExpenseDashboard.monthly stats = JS.zero /\
   ExpenseDashboard.monthlyCount stats = 0%nat) /\
  (forall w2, expenses w2 = expenses w ->
              ExpenseDashboard.getExpenseStats tza now1 now2 w2 = stats).
Proof.
  cbv zeta. unfold ExpenseDashboard.getExpenseStats.
  cbn [ExpenseDashboard.total ExpenseDashboard.count
       ExpenseDashboard.monthly ExpenseDashboard.monthlyCount].
  assert (F : filter (ExpenseDashboard.inMonth tza (JS.getMonth tza now1)
                                                   (JS.getFullYear tza now2))
                     (expenses w) =
              recordsIn tza (JS.getMonth tza now1) (JS.getFullYear tza now2)
                        (expenses w)).
  { apply filter_ext. intro e. apply inMonth_fallsIn. }
  rewrite F, !fold_addAmount.
  do 4 (split; [reflexivity|]).
  split; [|split].
  - intro e. unfold recordsIn. rewrite filter_In.
    destruct (fallsIn_dec tza (JS.getMonth tza now1) (JS.getFullYear tza now2) e);
      intuition discriminate.
  - intro H. rewrite (recordsIn_none _ _ _ _ H). split; reflexivity.
  - intros w2 E. rewrite E, F, !fold_addAmount. reflexivity.
Qed.

Lemma getExpenseStats_sums_witness :
  (forall e, In e (expenses bothSaved) -> ~ fallsIn utc 3 2024 e) /\
  ExpenseDashboard.total
    (ExpenseDashboard.getExpenseStats utc april16 april16 bothSaved) =
  JS.parseFloat "52.50" /\
  ExpenseDashboard.count
    (ExpenseDashboard.getExpenseStats utc april16 april16 bothSaved) = 2%nat /\
  ExpenseDashboard.monthly
    (ExpenseDashboard.getExpenseStats utc april16 april16 bothSaved) = JS.zero /\
  ExpenseDashboard.monthlyCount
    (ExpenseDashboard.getExpenseStats utc april16 april16 bothSaved) = 0%nat.
Proof.
  assert (H : forall e, In e (expenses bothSaved) -> ~ fallsIn utc 3 2024 e).
  { intros e [<-|[<-|[]]] [Hm _]; vm_compute in Hm; discriminate Hm. }
  destruct (getExpenseStats_sums utc april16 april16 bothSaved)
    as (Ht & Hc & _ & _ & _ & Hz & _).
  split; [exact H|].
  split; [rewrite Ht; vm_compute; reflexivity|].
  split; [rewrite Hc; reflexivity|].
  exact (Hz H).
Defined.

(** The scenario of the specification, with March 2024 as reference month:
    the total of 42.50 and 10 is 52.50, over 2 records, both of that month. *)
Example stats_scenario :
  ExpenseDashboard.getExpenseStats utc march16 march16 bothSaved =
  ExpenseDashboard.mkStats (JS.parseFloat "52.50") (JS.parseFloat "52.50") 2 2.
Proof. vm_compute. reflexivity. Qed.

(** ** Saving, then starting again *)

Lemma ofExpense_recordOf (f : Form.t) (t1 t2 : JS.time) :
  valid f -> JS.isFinite (JS.parseFloat (Form.amount f)) = true ->
  JSON.ofExpense (recordOf f t1 t2) = recordOf f t1 t2.
Proof.
  intros (_ & _ & Hp & _) Hf.
  unfold JSON.ofExpense, recordOf.
  cbn [Expense.id Expense.amount Expense.category Expense.date
       Expense.description Expense.timestamp].
  now rewrite (ofValue_positive _ Hp Hf).
Qed.

(** C8, as the code has it.  When a valid candidate whose amount is a finite
    number is saved and the write is fulfilled, the collection loaded at the
    next start of the process contains the record that was created: the
    amount as [parseFloat] read it, the category, date and description
    trimmed, and the id and timestamp given at creation. *)
Theorem save_survives_restart (w : World) (t1 t2 : JS.time) :
  valid (form w) ->
  JS.isFinite (JS.parseFloat (Form.amount (form w))) = true ->
  exists r,
    In r (expenses (step (ExpenseDashboard.handleSave t1 t2 Fulfilled w)
                         (Restart Fulfilled))) /\
    Expense.amount r = Expense.Num (JS.parseFloat (Form.amount (form w))) /\
    Expense.category r = JS.trim (Form.category (form w)) /\
    Expense.date r = JS.trim (Form.date (form w)) /\
    Expense.description r = JS.trim (Form.description (form w)) /\
    Expense.id r = JS.toString t1 /\
    Expense.timestamp r = t2.
Proof.
  intros V Hf. exists (recordOf (form w) t1 t2).
  split; [|repeat split].
  cbn [step]. rewrite (storage_handleSave_valid _ _ _ _ V).
  rewrite (loadExpenses_sorts _ (map JSON.ofExpense
                                   (recordOf (form w) t1 t2 :: expenses w)))
    by reflexivity.
  eapply Permutation_in; [apply sort_Permutation|].
  cbn [map]. rewrite (ofExpense_recordOf _ _ _ V Hf). now left.
Qed.

Lemma save_survives_restart_witness :
  valid (form (filled food)) /\
  JS.isFinite (JS.parseFloat (Form.amount (form (filled food)))) = true /\
  exists r,
    In r (expenses (step (ExpenseDashboard.handleSave march15 march15 Fulfilled
                            (filled food))
                         (Restart Fulfilled))) /\
    Expense.amount r = Expense.Num (JS.parseFloat "42.50") /\
    Expense.category r = "Food".
Proof.
  split; [exact valid_food|]. split; [reflexivity|].
  destruct (save_survives_restart (filled food) march15 march15 valid_food eq_refl)
    as (r & Hin & Ha & Hc & _).
  exists r. split; [exact Hin|]. split; [exact Ha|exact Hc].
Defined.

(** C8 as stated fails: when the write is rejected, the record is gone after
    a restart. *)
Lemma rejected_write_lost_on_restart :
  valid food /\
  expenses foodUnwritten = [recordOf food march15 march15] /\
  expenses (step foodUnwritten (Restart Fulfilled)) = [].
Proof.
  split; [exact valid_food|]. split; reflexivity.
Qed.

(** An amount too large for a number is read as [Infinity], which passes the
    validation; its JSON text is "null", so after a restart the record has no
    amount. *)
Lemma infinite_amount_reloads_as_null :
  valid huge /\
  map Expense.amount (expenses (run [Save huge march15 march15 Fulfilled] installed)) =
  [Expense.Num (S754_infinity false)] /\
  map Expense.amount
      (expenses (run [Save huge march15 march15 Fulfilled; Restart Fulfilled] installed)) =
  [Expense.Null].
Proof.
  split; [repeat split; discriminate|]. split; reflexivity.
Qed.

(** [parseFloat] reads the longest numeric prefix: text after it is ignored,
    and such an amount is accepted. *)
Lemma trailing_text_ignored :
  JS.parseFloat "12abc" = JS.parseFloat "12" /\
  JS.parseFloat "1.2.3" = JS.parseFloat "1.2" /\
  valid (Form.mk "12abc" "Food" "03/15/2024" "").
Proof.
  split; [reflexivity|]. split; [reflexivity|]. repeat split; discriminate.
Qed.

(** * Further properties of the components *)

(** ** The date field: [formatDate] and [handleDateChange] *)

Lemma removeNonDigits_app (a b : string) :
  JS.removeNonDigits (a ++ b) = (JS.removeNonDigits a ++ JS.removeNonDigits b)%string.
Proof.
  induction a as [|c a IH]; cbn; [reflexivity|].
  destruct (JS.isDigit c); cbn; now rewrite IH.
Qed.

Lemma removeNonDigits_allDigits (s : string) :
  allDigits s = true -> JS.removeNonDigits s = s.
Proof.
  induction s as [|c s IH]; cbn; [reflexivity|].
  intro H. apply andb_true_iff in H as [Hc Hs]. rewrite Hc. now rewrite IH.
Qed.

Lemma allDigits_removeNonDigits (s : string) :
  allDigits (JS.removeNonDigits s) = true.
Proof.
  induction s as [|c s IH]; cbn; [reflexivity|].
  destruct (JS.isDigit c) eqn:E; cbn; [now rewrite E|exact IH].
Qed.

(** What a greedy [\d{0,n}] takes from a string of digits. *)
Lemma takeDigits_allDigits (n : nat) (s : string) :
  allDigits s = true ->
  exists taken rest,
    JS.takeDigits n s = (taken, rest) /\
    s = (taken ++ rest)%string /\
    allDigits taken = true /\ allDigits rest = true /\
    String.length taken = Nat.min n (String.length s).
Proof.
  revert s. induction n as [|n IH]; intros s H.
  - exists ""%string, s. destruct s; cbn; auto.
  - destruct s as [|c s]; cbn.
    + exists ""%string, ""%string. auto.
    + cbn in H. apply andb_true_iff in H as [Hc Hs]. rewrite Hc.
      destruct (IH s Hs) as (taken & rest & E & -> & Ht & Hr & Hl).
      rewrite E. exists (String c taken), rest. cbn. rewrite Hc, Hl. auto.
Qed.

Lemma length_append (a b : string) :
  String.length (a ++ b) = (String.length a + String.length b)%nat.
Proof. induction a as [|c a IH]; cbn; [reflexivity|now rewrite IH]. Qed.

(** The groups of a text of digits: they are found exactly when there are at
    most 8 digits, and put together again they are the text. *)
Lemma matchDate_allDigits (c : string) :
  allDigits c = true ->
  match AddExpenseModal.matchDate c with
  | Some (m1, m2, m3) =>
      c = (m1 ++ m2 ++ m3)%string /\
      allDigits m1 = true /\ allDigits m2 = true /\ allDigits m3 = true /\
      (String.length c <= 8)%nat /\
      String.length m1 = Nat.min 2 (String.length c) /\
      (String.length m2 <= 2)%nat /\ (String.length m3 <= 4)%nat
  | None => (8 < String.length c)%nat
  end.
Proof.
  intro H. unfold AddExpenseModal.matchDate.
  destruct (takeDigits_allDigits 2 c H) as (m1 & r1 & E1 & -> & H1 & Hr1 & L1).
  destruct (takeDigits_allDigits 2 r1 Hr1) as (m2 & r2 & E2 & -> & H2 & Hr2 & L2).
  destruct (takeDigits_allDigits 4 r2 Hr2) as (m3 & r3 & E3 & -> & H3 & Hr3 & L3).
  rewrite E1, E2, E3.
  rewrite !length_append in *.
  destruct r3 as [|x r3]; cbn [String.length] in *.
  - replace (m3 ++ "")%string with m3
      by (clear; induction m3 as [|a m IH]; cbn; [reflexivity|now rewrite <- IH]).
    repeat split; auto; lia.
  - lia.
Qed.

Lemma append_empty (s : string) : (s ++ "")%string = s.
Proof. induction s as [|c s IH]; cbn; [reflexivity|now rewrite IH]. Qed.

Lemma append_assoc (a b c : string) :
  ((a ++ b) ++ c)%string = (a ++ b ++ c)%string.
Proof. induction a as [|x a IH]; cbn; [reflexivity|now rewrite IH]. Qed.

(** The text [formatDate] builds when the groups are found. *)
Lemma formatDate_groups (text m1 m2 m3 : string) :
  AddExpenseModal.matchDate (JS.removeNonDigits text) = Some (m1, m2, m3) ->
  AddExpenseModal.formatDate text =
  ((if JS.truthy m1 then m1 else "") ++
   (if JS.truthy m2 then "/" ++ m2 else "") ++
   (if JS.truthy m3 then "/" ++ m3 else ""))%string.
Proof.
  intro E. unfold AddExpenseModal.formatDate. rewrite E.
  destruct m1, m2, m3; cbn [JS.truthy]; cbn [append];
    rewrite ?append_empty, ?append_assoc; reflexivity.
Qed.

Lemma digitsAndSlashes_app (a b : string) :
  digitsAndSlashes (a ++ b) = digitsAndSlashes a && digitsAndSlashes b.
Proof.
  induction a as [|c a IH]; cbn; [reflexivity|]. rewrite IH. apply andb_assoc.
Qed.

Lemma allDigits_digitsAndSlashes (s : string) :
  allDigits s = true -> digitsAndSlashes s = true.
Proof.
  induction s as [|c s IH]; cbn; [reflexivity|].
  intro H. apply andb_true_iff in H as [Hc Hs]. rewrite Hc. cbn. auto.
Qed.

(** No character of a date of digits and slashes is white space. *)
Lemma trim_digitsAndSlashes (s : string) :
  digitsAndSlashes s = true -> JS.trim s = s.
Proof.
  intro H.
  assert (N : forall c, (JS.isDigit c || Ascii.eqb c "/")%char = true ->
                        JS.isWhiteSpace c = false).
  { intros c Hc. apply orb_true_iff in Hc as [Hc|Hc].
    - unfold JS.isDigit, JS.isWhiteSpace in *.
      apply andb_true_iff in Hc as [H1 H2].
      apply N.leb_le in H1, H2.
      destruct (N.leb_spec (N_of_ascii c) 13), (N.eqb_spec (N_of_ascii c) 32),
        (N.eqb_spec (N_of_ascii c) 160); rewrite ?andb_false_r; cbn; auto; lia.
    - apply Ascii.eqb_eq in Hc. subst c. reflexivity. }
  unfold JS.trim.
  assert (S : JS.trimStart s = s).
  { destruct s as [|c s]; cbn; [reflexivity|].
    cbn in H. apply andb_true_iff in H as [Hc _]. now rewrite (N c Hc). }
  rewrite S. clear S.
  induction s as [|c s IH]; cbn; [reflexivity|].
  cbn in H. apply andb_true_iff in H as [Hc Hs].
  rewrite (IH Hs), (N c Hc). destruct s; reflexivity.
Qed.

(** [formatDate] with at most 8 digits in the text, and with more. *)
Lemma formatDate_cases (text : string) :
  ((String.length (JS.removeNonDigits text) <= 8)%nat ->
   AddExpenseModal.formatDate text =
   AddExpenseModal.formatDate (JS.removeNonDigits text) /\
   JS.removeNonDigits (AddExpenseModal.formatDate text) = JS.removeNonDigits text /\
   digitsAndSlashes (AddExpenseModal.formatDate text) = true /\
   (String.length (AddExpenseModal.formatDate text) <= 10)%nat) /\
  ((8 < String.length (JS.removeNonDigits text))%nat ->
   AddExpenseModal.formatDate text = text).
Proof.
  pose proof (matchDate_allDigits _ (allDigits_removeNonDigits text)) as M.
  destruct (AddExpenseModal.matchDate (JS.removeNonDigits text))
    as [[[m1 m2] m3]|] eqn:E.
  - destruct M as (Hc & H1 & H2 & H3 & L & L1 & L2 & L3).
    split; [intros _|lia].
    assert (E' : AddExpenseModal.matchDate
                   (JS.removeNonDigits (JS.removeNonDigits text)) = Some (m1, m2, m3)).
    { now rewrite (removeNonDigits_allDigits _ (allDigits_removeNonDigits text)). }
    rewrite (formatDate_groups _ _ _ _ E), (formatDate_groups _ _ _ _ E').
    split; [reflexivity|]. rewrite Hc.
    assert (L1' : (String.length m1 <= 2)%nat) by lia.
    clear E E' Hc L L1.
    destruct m1, m2, m3; cbn [JS.truthy];
      rewrite ?removeNonDigits_app, ?digitsAndSlashes_app, ?length_append;
      cbn [JS.removeNonDigits JS.isDigit digitsAndSlashes String.length append
           N_of_ascii N.leb N.compare andb orb Ascii.eqb Bool.eqb] in *;
      rewrite ?removeNonDigits_app, ?length_append in *;
      repeat match goal with
             | H : allDigits (String ?a ?s) = true |- _ =>
                 let Ha := fresh "Ha" in let Hs := fresh "Hs" in
                 cbn [allDigits] in H; apply andb_true_iff in H as [Ha Hs]
             end;
      repeat match goal with
             | H : JS.isDigit ?a = true |- _ => rewrite H; cbn [andb orb]
             end;
      repeat match goal with
             | H : allDigits ?s = true |- _ =>
                 rewrite (removeNonDigits_allDigits _ H),
                         (allDigits_digitsAndSlashes _ H)
             end;
      cbn [String.length append] in *; rewrite ?append_empty;
      (split; [reflexivity|split; [reflexivity|lia]]).
  - split; [lia|intros _].
    unfold AddExpenseModal.formatDate. now rewrite E.
Qed.

(** X1.  [formatDate] works on the digits of the text alone.  With at most 8
    of them, two texts that have the same digits are formatted alike, the
    result has those digits, is made of digits and slashes only and is at
    most 10 characters long; with more than 8 the text comes back as it is,
    whatever it holds. *)
Theorem formatDate_digits (text : string) :
  ((String.length (JS.removeNonDigits text) <= 8)%nat ->
   (forall other,
       JS.removeNonDigits other = JS.removeNonDigits text ->
       AddExpenseModal.formatDate other = AddExpenseModal.formatDate text) /\
   JS.removeNonDigits (AddExpenseModal.formatDate text) = JS.removeNonDigits text /\
   digitsAndSlashes (AddExpenseModal.formatDate text) = true /\
   (String.length (AddExpenseModal.formatDate text) <= 10)%nat) /\
  ((8 < String.length (JS.removeNonDigits text))%nat ->
   AddExpenseModal.formatDate text = text).
Proof.
  destruct (formatDate_cases text) as [Hshort Hlong].
  split; [|exact Hlong].
  intro L. destruct (Hshort L) as (E & D & S & N).
  split; [|now repeat split].
  intros other Ho.
  destruct (formatDate_cases other) as [Hother _].
  rewrite Ho in Hother. destruct (Hother L) as (E' & _).
  now rewrite E', E.
Qed.

Lemma formatDate_digits_witness :
  (String.length (JS.removeNonDigits "3152024") <= 8)%nat /\
  JS.removeNonDigits "3-15 2024" = JS.removeNonDigits "3152024" /\
  AddExpenseModal.formatDate "3-15 2024" = "31/52/024" /\
  (8 < String.length (JS.removeNonDigits "03/15/20245"))%nat /\
  AddExpenseModal.formatDate "03/15/20245" = "03/15/20245".
Proof.
  destruct (formatDate_digits "3152024") as [Hshort _].
  destruct (formatDate_digits "03/15/20245") as [_ Hlong].
  assert (L : (String.length (JS.removeNonDigits "3152024") <= 8)%nat)
    by (cbn; lia).
  assert (G : (8 < String.length (JS.removeNonDigits "03/15/20245"))%nat)
    by (cbn; lia).
  destruct (Hshort L) as (C & _).
  split; [exact L|]. split; [reflexivity|].
  split; [rewrite (C "3-15 2024" eq_refl); reflexivity|].
  split; [exact G|exact (Hlong G)].
Defined.

(** X2.  Formatting a formatted date changes nothing: the field can pass its
    own content through [formatDate] at every keystroke. *)
Theorem formatDate_idempotent (text : string) :
  AddExpenseModal.formatDate (AddExpenseModal.formatDate text) =
  AddExpenseModal.formatDate text.
Proof.
  destruct (formatDate_cases text) as [Hshort Hlong].
  destruct (Nat.le_gt_cases (String.length (JS.removeNonDigits text)) 8) as [L|G].
  - destruct (Hshort L) as (E & D & _).
    destruct (formatDate_cases (AddExpenseModal.formatDate text)) as [Hshort' _].
    rewrite D in Hshort'. destruct (Hshort' L) as (E' & _).
    rewrite E', <- E. reflexivity.
  - rewrite (Hlong G). exact (Hlong G).
Qed.

(** X3.  A date typed into the field, with at least one and at most 8 digits
    in it, is stored as the field shows it: trimming does not change it. *)
Theorem typed_date_stored (w : World) (text : string) (t1 t2 : JS.time) (s : Settled) :
  valid (form (AddExpenseModal.handleDateChange text w)) ->
  (String.length (JS.removeNonDigits text) <= 8)%nat ->
  exists new,
    expenses (ExpenseDashboard.handleSave t1 t2 s
                (AddExpenseModal.handleDateChange text w)) = new :: expenses w /\
    Expense.date new = AddExpenseModal.formatDate text /\
    Form.date (form (AddExpenseModal.handleDateChange text w)) =
    AddExpenseModal.formatDate text.
Proof.
  intros V L.
  exists (recordOf (form (AddExpenseModal.handleDateChange text w)) t1 t2).
  rewrite (expenses_handleSave_valid _ _ _ _ V).
  split; [reflexivity|]. split; [|reflexivity].
  cbn. apply trim_digitsAndSlashes.
  destruct (formatDate_cases text) as [Hshort _]. now destruct (Hshort L) as (_ & _ & D & _).
Qed.

Lemma typed_date_stored_witness :
  valid (form (AddExpenseModal.handleDateChange "03152024" (filled food))) /\
  (String.length (JS.removeNonDigits "03152024") <= 8)%nat /\
  exists new,
    expenses (ExpenseDashboard.handleSave march15 march15 Fulfilled
                (AddExpenseModal.handleDateChange "03152024" (filled food))) = [new] /\
    Expense.date new = "03/15/2024".
Proof.
  assert (V : valid (form (AddExpenseModal.handleDateChange "03152024" (filled food))))
    by (repeat split; discriminate).
  assert (L : (String.length (JS.removeNonDigits "03152024") <= 8)%nat)
    by (cbn; lia).
  split; [exact V|]. split; [exact L|].
  destruct (typed_date_stored (filled food) "03152024" march15 march15 Fulfilled V L)
    as (new & E & D & _).
  exists new. split; [exact E|exact D].
Defined.

(** X4.  A text with no digit in it leaves the date empty, and a save is then
    refused for a missing field, whatever the other fields hold. *)
Theorem date_without_digits_missing (w : World) (text : string)
        (t1 t2 : JS.time) (s : Settled) :
  JS.removeNonDigits text = "" ->
  Form.date (form (AddExpenseModal.handleDateChange text w)) = "" /\
  ExpenseDashboard.handleSave t1 t2 s (AddExpenseModal.handleDateChange text w) =
  Alert_alert "Error"
    "Please fill in all required fields (Amount, Category, and Date)"
    (AddExpenseModal.handleDateChange text w).
Proof.
  intro E.
  assert (D : AddExpenseModal.formatDate text = "").
  { unfold AddExpenseModal.formatDate. rewrite E. reflexivity. }
  unfold AddExpenseModal.handleDateChange.
  unfold ExpenseDashboard.handleSave, AddExpenseModal.handleSave.
  cbn [form AddExpenseModal.setDate setForm Form.date Form.amount Form.category].
  rewrite D. split; [reflexivity|].
  cbn [JS.truthy negb]. rewrite !orb_true_r. reflexivity.
Qed.

Lemma date_without_digits_missing_witness :
  JS.removeNonDigits "today" = "" /\
  alerts (ExpenseDashboard.handleSave march15 march15 Fulfilled
            (AddExpenseModal.handleDateChange "today" (filled food))) =
  [("Error", "Please fill in all required fields (Amount, Category, and Date)")].
Proof.
  split; [reflexivity|].
  destruct (date_without_digits_missing (filled food) "today" march15 march15
                                        Fulfilled eq_refl) as [_ E].
  rewrite E. reflexivity.
Defined.

(** ** The "Today" button: [getCurrentDate] and [setTodayDate] *)

Lemma dayOfMonth_bounds (day : Z) : 1 <= JS.dayOfMonth day <= 31.
Proof.
  unfold JS.dayOfMonth. cbv zeta.
  Z.to_euclidean_division_equations; lia.
Qed.

Lemma civil_month_bounds (day : Z) : 0 <= snd (JS.civil day) <= 11.
Proof.
  unfold JS.civil. cbv zeta. cbn [snd].
  match goal with |- context [if ?b then _ else _] => destruct b eqn:E end;
    [apply Z.ltb_lt in E|apply Z.ltb_ge in E];
    revert E; Z.to_euclidean_division_equations; lia.
Qed.

(** An integer of an interval is one of the integers counted from its lower
    end. *)
Lemma in_interval (lo n len : Z) :
  lo <= n < lo + len ->
  In n (map (fun k => lo + Z.of_nat k) (seq 0 (Z.to_nat len))).
Proof.
  intro H. apply in_map_iff. exists (Z.to_nat (n - lo)).
  split; [lia|]. apply in_seq. lia.
Qed.

(** The text of an integer from 0 to 99, padded, has two digits; the text of
    an integer from 1000 to 9999 has four. *)
Lemma padStart_two_digits (n : Z) :
  0 <= n <= 99 ->
  String.length (JS.padStart 2 "0" (JS.toString n)) = 2%nat /\
  allDigits (JS.padStart 2 "0" (JS.toString n)) = true.
Proof.
  intro H.
  assert (C : forallb (fun n => (String.length (JS.padStart 2 "0" (JS.toString n)) =? 2)%nat
                                && allDigits (JS.padStart 2 "0" (JS.toString n)))
                      (map (fun k => 0 + Z.of_nat k) (seq 0 (Z.to_nat 100))) = true)
    by (vm_compute; reflexivity).
  rewrite forallb_forall in C.
  specialize (C n (in_interval 0 n 100 ltac:(lia))).
  apply andb_true_iff in C as [C1 C2]. apply Nat.eqb_eq in C1. now split.
Qed.

Lemma toString_four_digits (y : Z) :
  1000 <= y <= 9999 ->
  String.length (JS.toString y) = 4%nat /\ allDigits (JS.toString y) = true.
Proof.
  intro H.
  assert (C : forallb (fun y => (String.length (JS.toString y) =? 4)%nat
                                && allDigits (JS.toString y))
                      (map (fun k => 1000 + Z.of_nat k) (seq 0 (Z.to_nat 9000))) = true)
    by (vm_compute; reflexivity).
  rewrite forallb_forall in C.
  specialize (C y (in_interval 1000 y 9000 ltac:(lia))).
  apply andb_true_iff in C as [C1 C2]. apply Nat.eqb_eq in C1. now split.
Qed.

(** Two digits, a slash, two digits, a slash and four digits are a date that
    [formatDate] leaves as it is. *)
Lemma formatDate_full (mm dd yyyy : string) :
  String.length mm = 2%nat -> allDigits mm = true ->
  String.length dd = 2%nat -> allDigits dd = true ->
  String.length yyyy = 4%nat -> allDigits yyyy = true ->
  AddExpenseModal.formatDate (mm ++ "/" ++ dd ++ "/" ++ yyyy) =
  (mm ++ "/" ++ dd ++ "/" ++ yyyy)%string /\
  String.length (mm ++ "/" ++ dd ++ "/" ++ yyyy) = 10%nat /\
  digitsAndSlashes (mm ++ "/" ++ dd ++ "/" ++ yyyy) = true.
Proof.
  intros Lm Dm Ld Dd Ly Dy.
  destruct mm as [|a [|b [|? ?]]]; try discriminate Lm.
  destruct dd as [|c [|d [|? ?]]]; try discriminate Ld.
  destruct yyyy as [|e [|f [|g [|h [|? ?]]]]]; try discriminate Ly.
  cbn [allDigits] in Dm, Dd, Dy.
  repeat match goal with
         | H : _ && _ = true |- _ => apply andb_true_iff in H as [? H]
         end.
  assert (S : JS.isDigit "/" = false) by reflexivity.
  unfold AddExpenseModal.formatDate, AddExpenseModal.matchDate.
  repeat (cbn [append JS.removeNonDigits JS.takeDigits digitsAndSlashes
               String.length JS.truthy];
          rewrite ?S;
          repeat match goal with
                 | H : JS.isDigit ?x = true |- context [JS.isDigit ?x] =>
                     rewrite !H
                 end).
  cbn. repeat split; reflexivity.
Qed.

(** X5.  In a year of four digits, the date that the "Today" button puts in
    the field is ten characters of the MM/DD/YYYY form: formatting and
    trimming leave it as it is, and it is not empty, so that it counts as a
    date for the required-field test. *)
Theorem setTodayDate_wellFormed (tza : JS.time -> Z) (today : JS.time) (w : World) :
  1000 <= JS.getFullYear tza today <= 9999 ->
  let date := Form.date (form (AddExpenseModal.setTodayDate tza today w)) in
  date = AddExpenseModal.getCurrentDate tza today /\
  String.length date = 10%nat /\
  AddExpenseModal.formatDate date = date /\
  JS.trim date = date /\
  JS.truthy date = true.
Proof.
  intros Hy date. subst date.
  cbn [AddExpenseModal.setTodayDate AddExpenseModal.setDate form setForm Form.date].
  split; [reflexivity|].
  unfold AddExpenseModal.getCurrentDate.
  destruct (padStart_two_digits (JS.getMonth tza today + 1)) as [Lm Dm].
  { unfold JS.getMonth.
    pose proof (civil_month_bounds ((today + tza today) / JS.msPerDay)). lia. }
  destruct (padStart_two_digits (JS.getDate tza today)) as [Ld Dd].
  { unfold JS.getDate.
    pose proof (dayOfMonth_bounds ((today + tza today) / JS.msPerDay)). lia. }
  destruct (toString_four_digits _ Hy) as [Ly Dy].
  destruct (formatDate_full _ _ _ Lm Dm Ld Dd Ly Dy) as (F & L & D).
  split; [exact L|]. split; [exact F|].
  split; [now apply trim_digitsAndSlashes|].
  destruct (JS.padStart 2 "0" (JS.toString (JS.getMonth tza today + 1)));
    [discriminate Lm|reflexivity].
Qed.

Lemma setTodayDate_wellFormed_witness :
  1000 <= JS.getFullYear utc march15 <= 9999 /\
  Form.date (form (AddExpenseModal.setTodayDate utc march15 installed)) = "03/15/2024" /\
  AddExpenseModal.formatDate "03/15/2024" = "03/15/2024".
Proof.
  assert (Hy : 1000 <= JS.getFullYear utc march15 <= 9999)
    by (vm_compute; split; discriminate).
  destruct (setTodayDate_wellFormed utc march15 installed Hy) as (E & _ & F & _).
  split; [exact Hy|]. split; [reflexivity|].
  change "03/15/2024"%string
    with (Form.date (form (AddExpenseModal.setTodayDate utc march15 installed))).
  exact F.
Defined.

(** ** The form after a save, and closing the modal *)

Lemma form_saveExpenses (s : Settled) (l : list Expense.t) (w : World) :
  form (ExpenseDashboard.saveExpenses s l w) = form w /\
  modalVisible (ExpenseDashboard.saveExpenses s l w) = modalVisible w.
Proof. destruct s; split; reflexivity. Qed.

(** X6.  An accepted save empties the form and hides the modal; a refused one
    leaves what the user typed and the modal as they are; and closing the
    modal empties the form and hides it without touching the collection, the
    storage or the alerts. *)
Theorem handleSave_form (w : World) (t1 t2 : JS.time) (s : Settled) :
  (valid (form w) ->
   form (ExpenseDashboard.handleSave t1 t2 s w) = Form.empty /\
   modalVisible (ExpenseDashboard.handleSave t1 t2 s w) = false) /\
  (~ valid (form w) ->
   form (ExpenseDashboard.handleSave t1 t2 s w) = form w /\
   modalVisible (ExpenseDashboard.handleSave t1 t2 s w) = modalVisible w) /\
  AddExpenseModal.handleClose (setModalVisible false) w =
  mkWorld (expenses w) false (refreshing w) (loading w) Form.empty
          (storage w) (alerts w) (console w).
Proof.
  split; [|split].
  - intro V. rewrite (handleSave_valid _ _ _ _ V). split; reflexivity.
  - intro V. destruct (handleSave_invalid w t1 t2 s V) as (m & _ & ->).
    split; reflexivity.
  - reflexivity.
Qed.

Lemma handleSave_form_witness :
  valid (form (filled food)) /\
  form (ExpenseDashboard.handleSave march15 march15 Fulfilled (filled food)) =
  Form.empty /\
  ~ valid (form (filled letters)) /\
  form (ExpenseDashboard.handleSave march15 march15 Fulfilled (filled letters)) =
  letters.
Proof.
  assert (N : ~ valid (form (filled letters))).
  { intros (_ & H & _). discriminate H. }
  destruct (handleSave_form (filled food) march15 march15 Fulfilled) as (Hv & _ & _).
  destruct (handleSave_form (filled letters) march15 march15 Fulfilled) as (_ & Hn & _).
  split; [exact valid_food|]. split; [exact (proj1 (Hv valid_food))|].
  split; [exact N|exact (proj1 (Hn N))].
Defined.

(** ** Deleting again, and deleting what was just saved *)

Lemma expenses_deleteExpense (id : string) (s : Settled) (w : World) :
  expenses (ExpenseDashboard.deleteExpense id Delete s w) =
  filter (ExpenseDashboard.keeps id) (expenses w).
Proof.
  unfold ExpenseDashboard.deleteExpense. now rewrite expenses_saveExpenses.
Qed.

Lemma filter_twice {A : Type} (p : A -> bool) (l : list A) :
  filter p (filter p l) = filter p l.
Proof.
  induction l as [|a l IH]; cbn; [reflexivity|].
  destruct (p a) eqn:E; cbn; rewrite ?E, IH; reflexivity.
Qed.

(** X7.  Deleting the same id a second time changes nothing more in the
    collection, whether or not the writes are fulfilled. *)
Theorem deleteExpense_twice (w : World) (id : string) (s1 s2 : Settled) :
  expenses (ExpenseDashboard.deleteExpense id Delete s2
              (ExpenseDashboard.deleteExpense id Delete s1 w)) =
  expenses (ExpenseDashboard.deleteExpense id Delete s1 w).
Proof.
  rewrite !expenses_deleteExpense. apply filter_twice.
Qed.

(** X8.  Deleting the record that was just saved gives the collection back as
    it was before the save, provided the id of the new record was not in use;
    and the storage item is then the text of that collection when the second
    write is fulfilled. *)
Theorem delete_after_save (w : World) (t1 t2 : JS.time) (s1 s2 : Settled) :
  valid (form w) ->
  ~ In (JS.toString t1) (map Expense.id (expenses w)) ->
  expenses (ExpenseDashboard.deleteExpense (JS.toString t1) Delete s2
              (ExpenseDashboard.handleSave t1 t2 s1 w)) = expenses w /\
  (s2 = Fulfilled ->
   storage (ExpenseDashboard.deleteExpense (JS.toString t1) Delete s2
              (ExpenseDashboard.handleSave t1 t2 s1 w)) =
   Some (JSON.stringify (expenses w))).
Proof.
  intros V F.
  assert (E : filter (ExpenseDashboard.keeps (JS.toString t1))
                     (expenses (ExpenseDashboard.handleSave t1 t2 s1 w)) =
              expenses w).
  { rewrite (expenses_handleSave_valid _ _ _ _ V). cbn [filter].
    unfold ExpenseDashboard.keeps at 1. cbn [recordOf Expense.id].
    rewrite String.eqb_refl. cbn [negb]. now apply filter_keeps_absent. }
  split.
  - rewrite expenses_deleteExpense. exact E.
  - intros ->. unfold ExpenseDashboard.deleteExpense.
    rewrite storage_saveExpenses. cbn [expenses Alert_alert]. now rewrite E.
Qed.

Lemma delete_after_save_witness :
  valid (form (setForm transport foodSaved)) /\
  ~ In (JS.toString march16) (map Expense.id (expenses (setForm transport foodSaved))) /\
  expenses (ExpenseDashboard.deleteExpense (JS.toString march16) Delete Fulfilled
              (ExpenseDashboard.handleSave march16 march16 Fulfilled
                 (setForm transport foodSaved))) =
  [recordOf food march15 march15].
Proof.
  assert (F : ~ In (JS.toString march16)
                   (map Expense.id (expenses (setForm transport foodSaved)))).
  { intros [H|[]]. discriminate H. }
  split; [exact valid_transport|]. split; [exact F|].
  exact (proj1 (delete_after_save (setForm transport foodSaved) march16 march16
                                  Fulfilled Fulfilled valid_transport F)).
Defined.

(** X9.  Nothing but a mutating operation whose write is fulfilled changes the
    storage item: a refused save, a cancelled deletion, a refresh, a restart
    and every operation whose write is rejected leave it as it is. *)
Theorem storage_untouched (w : World) (ev : Event) :
  (mutating ev -> setItemOf ev = Rejected) ->
  storage (step w ev) = storage w.
Proof.
  intro H. destruct ev as [f t1 t2 s|id [|] s|g|g]; cbn [step].
  - set (w0 := setForm f (setModalVisible true w)).
    destruct (valid_dec f) as [V|V].
    + assert (V0 : valid (form w0)) by exact V.
      rewrite (storage_handleSave_valid _ _ _ _ V0).
      cbn in H. now rewrite (H V).
    + now destruct (handleSave_invalid w0 t1 t2 s V) as (m & _ & ->).
  - reflexivity.
  - unfold ExpenseDashboard.deleteExpense. rewrite storage_saveExpenses.
    cbn in H. now rewrite (H I).
  - unfold ExpenseDashboard.onRefresh. cbn [storage setRefreshing].
    now rewrite storage_loadExpenses.
  - now rewrite storage_loadExpenses.
Qed.

Lemma storage_untouched_witness :
  (mutating (Remove "1710504000000" Delete Rejected) ->
   setItemOf (Remove "1710504000000" Delete Rejected) = Rejected) /\
  storage (step bothSaved (Remove "1710504000000" Delete Rejected)) =
  storage bothSaved.
Proof.
  split; [reflexivity|].
  apply (storage_untouched bothSaved (Remove "1710504000000" Delete Rejected)).
  reflexivity.
Defined.

(** ** What every record of a reachable collection is like *)

(** As [step_Forall], with one property for the records in memory and another
    for those in storage: what is read from storage has the first if it had
    the second, and what is written has the second if it had the first. *)
Lemma step_Forall2 (P Q : Expense.t -> Prop) (w : World) (ev : Event) :
  (forall e, Q e -> P e) ->
  (forall e, P e -> Q (JSON.ofExpense e)) ->
  Forall P (expenses w) -> Forall Q (stored w) ->
  (forall f t1 t2 s, ev = Save f t1 t2 s -> valid f -> P (recordOf f t1 t2)) ->
  Forall P (expenses (step w ev)) /\ Forall Q (stored (step w ev)).
Proof.
  intros HQP HPQ Hm Hs Hnew.
  assert (M : Forall P (expenses (step w ev))).
  { destruct (expenses_step w ev)
      as [(f & t1 & t2 & s & -> & V & E)|[(id & E)|[E|[E|E]]]]; rewrite E.
    - constructor; [now apply (Hnew f t1 t2 s)|exact Hm].
    - apply Forall_forall. intros e He. apply filter_In in He as [He _].
      now apply (proj1 (Forall_forall _ _) Hm).
    - exact Hm.
    - constructor.
    - eapply Permutation_Forall; [apply sort_Permutation|].
      eapply Forall_impl; [exact HQP|exact Hs]. }
  split; [exact M|].
  destruct (storage_step w ev) as [E|E].
  - now rewrite (stored_same _ _ E).
  - rewrite (stored_stringify _ _ E).
    apply Forall_forall. intros e He. apply in_map_iff in He as (e0 & <- & He0).
    apply HPQ. now apply (proj1 (Forall_forall _ _) M).
Qed.

Lemma positiveOrNull_ofValue (v : Expense.value) :
  positiveOrNull v -> finiteOrNull (JSON.ofValue v).
Proof.
  destruct v as [[s|s| |s m e]|]; cbn; try discriminate; auto;
    destruct s; cbn; try discriminate; auto.
Qed.

Lemma finiteOrNull_positiveOrNull (v : Expense.value) :
  finiteOrNull v -> positiveOrNull v.
Proof. destruct v; cbn; tauto. Qed.

(** X10.  In every reachable state the amount of a record in memory is a
    number greater than 0, or [null]; and in storage the amounts are finite
    numbers greater than 0, or [null]. *)
Theorem amounts_positive (evs : list Event) :
  Forall (fun e => positiveOrNull (Expense.amount e)) (expenses (run evs installed)) /\
  Forall (fun e => finiteOrNull (Expense.amount e)) (stored (run evs installed)).
Proof.
  induction evs as [|ev evs [IHm IHs]] using rev_ind.
  - split; constructor.
  - rewrite run_snoc. apply step_Forall2; auto.
    + intros e. apply finiteOrNull_positiveOrNull.
    + intros e. apply positiveOrNull_ofValue.
    + intros f t1 t2 s _ (_ & _ & Hp & _). exact Hp.
Qed.

(** ** Trimmed strings *)

Lemma trimEnd_head (c : ascii) (s : string) :
  JS.isWhiteSpace c = false ->
  exists r, JS.trimEnd (String c s) = String c r.
Proof.
  intro H. cbn. destruct (JS.trimEnd s); rewrite ?H; eauto.
Qed.

Lemma trimEnd_idempotent (s : string) : JS.trimEnd (JS.trimEnd s) = JS.trimEnd s.
Proof.
  induction s as [|c s IH]; cbn; [reflexivity|].
  destruct (JS.trimEnd s) as [|d r] eqn:E.
  - destruct (JS.isWhiteSpace c) eqn:W; cbn; rewrite ?W; reflexivity.
  - cbn [JS.trimEnd]. cbn [JS.trimEnd] in IH. rewrite IH. reflexivity.
Qed.

Lemma trimStart_head (s : string) :
  JS.trimStart s = "" \/
  exists c r, JS.trimStart s = String c r /\ JS.isWhiteSpace c = false.
Proof.
  induction s as [|c s IH]; cbn; [now left|].
  destruct (JS.isWhiteSpace c) eqn:W; [exact IH|].
  right. now exists c, s.
Qed.

(** Trimming twice is trimming once. *)
Lemma trim_idempotent (s : string) : JS.trim (JS.trim s) = JS.trim s.
Proof.
  unfold JS.trim.
  destruct (trimStart_head s) as [E|(c & r & E & W)]; rewrite E.
  - reflexivity.
  - destruct (trimEnd_head c r W) as (r' & E').
    rewrite E'. cbn [JS.trimStart]. rewrite W, <- E'. apply trimEnd_idempotent.
Qed.

(** X11.  In every reachable state the category, the date and the description
    of a record, in memory or in storage, are trimmed: they neither begin nor
    end with white space. *)
Theorem records_trimmed (evs : list Event) :
  Forall trimmed (expenses (run evs installed)) /\
  Forall trimmed (stored (run evs installed)).
Proof.
  induction evs as [|ev evs [IHm IHs]] using rev_ind.
  - split; constructor.
  - rewrite run_snoc. apply step_Forall; auto.
    intros f t1 t2 s _ _. unfold trimmed, recordOf. cbn.
    repeat split; apply trim_idempotent.
Qed.

(** ** Loading what was written *)

Lemma map_ofExpense_stable (l : list Expense.t) :
  Forall (fun e => finiteOrNull (Expense.amount e)) l -> map JSON.ofExpense l = l.
Proof.
  induction 1 as [|e l He _ IH]; cbn; [reflexivity|]. rewrite IH. f_equal.
  destruct e as [i [[s|s| |s m x]|] c d n t]; cbn in *;
    try reflexivity; destruct He as [Hp Hf]; discriminate.
Qed.

(** X12.  Loading gives back what was written: when the storage item is the
    text of the in-memory collection, the collection is newest first and its
    amounts are finite (or [null]), a refresh leaves the collection exactly
    as it is and raises no alert. *)
Theorem refresh_after_write (w : World) :
  storage w = Some (JSON.stringify (expenses w)) ->
  newestFirst (expenses w) ->
  Forall (fun e => finiteOrNull (Expense.amount e)) (expenses w) ->
  expenses (ExpenseDashboard.onRefresh Fulfilled w) = expenses w /\
  alerts (ExpenseDashboard.onRefresh Fulfilled w) = alerts w /\
  storage (ExpenseDashboard.onRefresh Fulfilled w) = storage w.
Proof.
  intros E S F.
  unfold ExpenseDashboard.onRefresh.
  cbn [expenses alerts storage setRefreshing].
  rewrite storage_loadExpenses. cbn [storage setRefreshing].
  assert (E' : storage (setRefreshing true w) =
               Some (JSON.Text (JSON.Array (expenses w)))).
  { cbn [storage setRefreshing]. rewrite E. unfold JSON.stringify.
    now rewrite (map_ofExpense_stable _ F). }
  rewrite (loadExpenses_sorts _ _ E'), (sort_sorted _ S).
  split; [reflexivity|]. split; [|reflexivity].
  unfold ExpenseDashboard.loadExpenses.
  destruct w as [l m r ld f st a c]. cbn in E'. subst st. reflexivity.
Qed.

Lemma refresh_after_write_witness :
  storage bothSaved = Some (JSON.stringify (expenses bothSaved)) /\
  newestFirst (expenses bothSaved) /\
  Forall (fun e => finiteOrNull (Expense.amount e)) (expenses bothSaved) /\
  expenses (ExpenseDashboard.onRefresh Fulfilled bothSaved) = expenses bothSaved.
Proof.
  assert (E : storage bothSaved = Some (JSON.stringify (expenses bothSaved)))
    by reflexivity.
  assert (S : newestFirst (expenses bothSaved)).
  { repeat constructor. unfold march15, march16. cbn. lia. }
  assert (F : Forall (fun e => finiteOrNull (Expense.amount e)) (expenses bothSaved)).
  { repeat constructor. }
  split; [exact E|]. split; [exact S|]. split; [exact F|].
  exact (proj1 (refresh_after_write bothSaved E S F)).
Defined.

(** X13.  Loading never writes, and loading again changes nothing: after a
    fulfilled load, a second load, whether its read is fulfilled or rejected,
    leaves the collection as the first one left it. *)
Theorem loadExpenses_again (w : World) (g g' : Settled) :
  storage (ExpenseDashboard.loadExpenses g w) = storage w /\
  expenses (ExpenseDashboard.loadExpenses g'
              (ExpenseDashboard.loadExpenses Fulfilled w)) =
  expenses (ExpenseDashboard.loadExpenses Fulfilled w).
Proof.
  split; [apply storage_loadExpenses|].
  destruct (expenses_loadExpenses g' (ExpenseDashboard.loadExpenses Fulfilled w))
    as [E|(_ & l & Hs & E)]; [exact E|].
  rewrite E. rewrite storage_loadExpenses in Hs.
  now rewrite (loadExpenses_sorts _ _ Hs).
Qed.

(** ** Counting *)

(** X14.  The monthly count never exceeds the count; on an empty collection
    the totals are 0 and the counts are 0; and an accepted save raises the
    count by one. *)
Theorem stats_counts (tza : JS.time -> Z) (now1 now2 : JS.time) (w : World) :
  (ExpenseDashboard.monthlyCount (ExpenseDashboard.getExpenseStats tza now1 now2 w)
   <= ExpenseDashboard.count (ExpenseDashboard.getExpenseStats tza now1 now2 w))%nat /\
  (expenses w = [] ->
   ExpenseDashboard.getExpenseStats tza now1 now2 w =
   ExpenseDashboard.mkStats JS.zero JS.zero 0 0) /\
  (forall t1 t2 s,
      valid (form w) ->
      ExpenseDashboard.count
        (ExpenseDashboard.getExpenseStats tza now1 now2
           (ExpenseDashboard.handleSave t1 t2 s w)) =
      S (ExpenseDashboard.count (ExpenseDashboard.getExpenseStats tza now1 now2 w))).
Proof.
  unfold ExpenseDashboard.getExpenseStats.
  cbn [ExpenseDashboard.count ExpenseDashboard.monthlyCount].
  split; [apply filter_length_le|]. split.
  - intros ->. reflexivity.
  - intros t1 t2 s V. now rewrite (expenses_handleSave_valid _ _ _ _ V).
Qed.

Lemma stats_counts_witness :
  expenses installed = [] /\
  ExpenseDashboard.getExpenseStats utc march15 march15 installed =
  ExpenseDashboard.mkStats JS.zero JS.zero 0 0 /\
  valid (form (filled food)) /\
  ExpenseDashboard.count
    (ExpenseDashboard.getExpenseStats utc march15 march15
       (ExpenseDashboard.handleSave march15 march15 Fulfilled (filled food))) = 1%nat.
Proof.
  destruct (stats_counts utc march15 march15 installed) as (_ & Hempty & _).
  destruct (stats_counts utc march15 march15 (filled food)) as (_ & _ & Hsave).
  split; [reflexivity|]. split; [exact (Hempty eq_refl)|].
  split; [exact valid_food|].
  exact (Hsave march15 march15 Fulfilled valid_food).
Defined.

(** ** Showing an amount *)

Lemma valid_infinite (f : Form.t) :
  valid f -> JS.isFinite (JS.parseFloat (Form.amount f)) = false ->
  JS.parseFloat (Form.amount f) = S754_infinity false.
Proof.
  intros (_ & _ & Hp & _) Hf.
  destruct (JS.parseFloat (Form.amount f)) as [s|s| |s m e];
    cbn in *; try discriminate; destruct s; cbn in *; try discriminate; reflexivity.
Qed.

(** X15.  An amount too large for a finite number is accepted, and shown
    while the process lives; once the process has restarted, the record is
    there with its amount [null], and [formatAmount] throws a [TypeError] on
    it, whatever [toFixed] does on numbers. *)
Theorem infinite_amount_not_shown (toFixed2 : JS.number -> string) (w : World)
        (t1 t2 : JS.time) :
  valid (form w) ->
  JS.isFinite (JS.parseFloat (Form.amount (form w))) = false ->
  (exists r,
      hd_error (expenses (ExpenseDashboard.handleSave t1 t2 Fulfilled w)) = Some r /\
      ExpenseDashboard.formatAmount toFixed2 (Expense.amount r) =
      Normal ("$" ++ toFixed2 (S754_infinity false))%string) /\
  (exists r,
      In r (expenses (step (ExpenseDashboard.handleSave t1 t2 Fulfilled w)
                           (Restart Fulfilled))) /\
      Expense.id r = JS.toString t1 /\
      Expense.amount r = Expense.Null /\
      ExpenseDashboard.formatAmount toFixed2 (Expense.amount r) = Throw TypeError).
Proof.
  intros V Hf. pose proof (valid_infinite _ V Hf) as E.
  split.
  - exists (recordOf (form w) t1 t2).
    rewrite (expenses_handleSave_valid _ _ _ _ V).
    split; [reflexivity|]. cbn [recordOf Expense.amount]. now rewrite E.
  - exists (JSON.ofExpense (recordOf (form w) t1 t2)).
    assert (A : Expense.amount (JSON.ofExpense (recordOf (form w) t1 t2)) =
                Expense.Null).
    { cbn [JSON.ofExpense recordOf Expense.amount]. now rewrite E. }
    split; [|split; [reflexivity|split; [exact A|now rewrite A]]].
    cbn [step]. rewrite (storage_handleSave_valid _ _ _ _ V).
    rewrite (loadExpenses_sorts _ (map JSON.ofExpense
                                     (recordOf (form w) t1 t2 :: expenses w)))
      by reflexivity.
    eapply Permutation_in; [apply sort_Permutation|]. now left.
Qed.

Lemma infinite_amount_not_shown_witness :
  valid (form (filled huge)) /\
  JS.isFinite (JS.parseFloat (Form.amount (form (filled huge)))) = false /\
  exists r,
    In r (expenses (step (ExpenseDashboard.handleSave march15 march15 Fulfilled
                            (filled huge))
                         (Restart Fulfilled))) /\
    ExpenseDashboard.formatAmount (fun _ => "Infinity") (Expense.amount r) =
    Throw TypeError.
Proof.
  assert (V : valid (form (filled huge))).
  { repeat split; try discriminate; vm_compute; reflexivity. }
  assert (F : JS.isFinite (JS.parseFloat (Form.amount (form (filled huge)))) = false).
  { vm_compute. reflexivity. }
  split; [exact V|]. split; [exact F|].
  destruct (infinite_amount_not_shown (fun _ => "Infinity") (filled huge)
                                      march15 march15 V F)
    as (_ & r & Hin & _ & _ & Ht).
  exists r. split; [exact Hin|exact Ht].
Defined.

(** ** Icons and colours *)

(** X16.  Each category that the modal offers is shown in the list with the
    icon and the colour it has in the modal; a category that is none of them,
    and no name of [Object.prototype], gets the "cash" icon and the default
    colour. *)
Theorem category_tables_agree (inherited : string -> bool) :
  (forall c,
      In c AddExpenseModal.categories ->
      ExpenseDashboard.getCategoryIcon inherited (AddExpenseModal.name c) =
      ExpenseDashboard.Str (AddExpenseModal.icon c) /\
      ExpenseDashboard.getCategoryColor inherited (AddExpenseModal.name c) =
      ExpenseDashboard.Str (AddExpenseModal.color c)) /\
  (forall category,
      ~ In category (map AddExpenseModal.name AddExpenseModal.categories) ->
      inherited category = false ->
      ExpenseDashboard.getCategoryIcon inherited category =
      ExpenseDashboard.Str "cash" /\
      ExpenseDashboard.getCategoryColor inherited category =
      ExpenseDashboard.Str "#4F46E5").
Proof.
  split.
  - intros c H. cbn in H.
    repeat (destruct H as [<-|H]; [split; reflexivity|]). contradiction.
  - intros category H I.
    unfold ExpenseDashboard.getCategoryIcon, ExpenseDashboard.getCategoryColor,
      ExpenseDashboard.orElse.
    cbn [map AddExpenseModal.categories AddExpenseModal.name In] in H.
    cbn [ExpenseDashboard.lookup].
    repeat match goal with
           | |- context [String.eqb ?k category] =>
               destruct (String.eqb_spec k category) as [E|_];
               [exfalso; apply H; rewrite E; tauto|]
           end.
    rewrite I. split; reflexivity.
Qed.

Lemma category_tables_agree_witness :
  In (AddExpenseModal.mkCategory "Bills" "receipt" "#F97316")
     AddExpenseModal.categories /\
  ExpenseDashboard.getCategoryIcon (fun _ => false) "Bills" =
  ExpenseDashboard.Str "receipt" /\
  ~ In "Rent" (map AddExpenseModal.name AddExpenseModal.categories) /\
  ExpenseDashboard.getCategoryColor (fun _ => false) "Rent" =
  ExpenseDashboard.Str "#4F46E5".
Proof.
  assert (B : In (AddExpenseModal.mkCategory "Bills" "receipt" "#F97316")
                 AddExpenseModal.categories).
  { do 5 right. left. reflexivity. }
  assert (R : ~ In "Rent" (map AddExpenseModal.name AddExpenseModal.categories)).
  { cbn. intuition discriminate. }
  destruct (category_tables_agree (fun _ => false)) as [Hin Hout].
  split; [exact B|]. split; [exact (proj1 (Hin _ B))|].
  split; [exact R|]. exact (proj2 (Hout "Rent" R eq_refl)).
Defined.

(** ** A restart after the last write *)

(** X17.  Nothing is lost or reordered by a restart: in a state reached
    while the clock did not run backwards, whose storage item is the text of
    the collection and whose amounts are finite (or [null]), the collection
    loaded at the next start is the collection as it was. *)
Theorem restart_recovers (evs : list Event) :
  nondecreasing (stampReadings evs) ->
  storage (run evs installed) = Some (JSON.stringify (expenses (run evs installed))) ->
  Forall (fun e => finiteOrNull (Expense.amount e)) (expenses (run evs installed)) ->
  expenses (run (evs ++ [Restart Fulfilled]) installed) =
  expenses (run evs installed).
Proof.
  intros S E F. rewrite run_snoc. cbn [step].
  pose proof (run_newestFirst evs S) as N.
  rewrite (loadExpenses_sorts _ (expenses (run evs installed))).
  - now apply sort_sorted.
  - cbn [storage ExpenseDashboard.initial]. rewrite E. unfold JSON.stringify.
    now rewrite (map_ofExpense_stable _ F).
Qed.

Lemma restart_recovers_witness :
  nondecreasing (stampReadings [Save food march15 march15 Fulfilled;
                                Save transport march16 march16 Fulfilled]) /\
  storage bothSaved = Some (JSON.stringify (expenses bothSaved)) /\
  Forall (fun e => finiteOrNull (Expense.amount e)) (expenses bothSaved) /\
  expenses (run [Save food march15 march15 Fulfilled;
                 Save transport march16 march16 Fulfilled;
                 Restart Fulfilled] installed) =
  [recordOf transport march16 march16; recordOf food march15 march15].
Proof.
  assert (S : nondecreasing (stampReadings [Save food march15 march15 Fulfilled;
                                            Save transport march16 march16 Fulfilled])).
  { repeat constructor. discriminate. }
  assert (E : storage bothSaved = Some (JSON.stringify (expenses bothSaved)))
    by reflexivity.
  assert (F : Forall (fun e => finiteOrNull (Expense.amount e)) (expenses bothSaved)).
  { repeat constructor. }
  split; [exact S|]. split; [exact E|]. split; [exact F|].
  exact (restart_recovers _ S E F).
Defined.

(** ** Choosing an offered category *)

(** X18.  A record saved after one of the offered categories was chosen has
    exactly that category, and the list shows it with the icon and the colour
    that the modal showed for it. *)
Theorem offered_category_saved (inherited : string -> bool) (c : AddExpenseModal.Category)
        (w : World) (t1 t2 : JS.time) (s : Settled) :
  In c AddExpenseModal.categories ->
  valid (form (AddExpenseModal.selectCategory (AddExpenseModal.name c) w)) ->
  exists new,
    expenses (ExpenseDashboard.handleSave t1 t2 s
                (AddExpenseModal.selectCategory (AddExpenseModal.name c) w)) =
    new :: expenses w /\
    Expense.category new = AddExpenseModal.name c /\
    ExpenseDashboard.getCategoryIcon inherited (Expense.category new) =
    ExpenseDashboard.Str (AddExpenseModal.icon c) /\
    ExpenseDashboard.getCategoryColor inherited (Expense.category new) =
    ExpenseDashboard.Str (AddExpenseModal.color c).
Proof.
  intros H V.
  exists (recordOf (form (AddExpenseModal.selectCategory (AddExpenseModal.name c) w))
                   t1 t2).
  rewrite (expenses_handleSave_valid _ _ _ _ V).
  split; [reflexivity|].
  cbn [recordOf Expense.category AddExpenseModal.selectCategory
       AddExpenseModal.setCategory form setForm Form.category].
  cbn in H.
  repeat (destruct H as [<-|H]; [repeat split; reflexivity|]). contradiction.
Qed.

Lemma offered_category_saved_witness :
  In (AddExpenseModal.mkCategory "Health" "medical" "#10B981")
     AddExpenseModal.categories /\
  valid (form (AddExpenseModal.selectCategory "Health" (filled food))) /\
  exists new,
    expenses (ExpenseDashboard.handleSave march15 march15 Fulfilled
                (AddExpenseModal.selectCategory "Health" (filled food))) = [new] /\
    Expense.category new = "Health" /\
    ExpenseDashboard.getCategoryIcon (fun _ => false) (Expense.category new) =
    ExpenseDashboard.Str "medical".
Proof.
  assert (H : In (AddExpenseModal.mkCategory "Health" "medical" "#10B981")
                 AddExpenseModal.categories).
  { do 4 right. left. reflexivity. }
  assert (V : valid (form (AddExpenseModal.selectCategory "Health" (filled food))))
    by (repeat split; discriminate).
  split; [exact H|]. split; [exact V|].
  destruct (offered_category_saved (fun _ => false) _ (filled food)
                                   march15 march15 Fulfilled H V)
    as (new & E & C & I & _).
  exists new. split; [exact E|]. split; [exact C|exact I].
Defined.
